(** * AsterDexVolume: trend analysis, risk limits and two-leg order cycle

    A shallow embedding of [trend_analyzer_simple.py] and of the risk and
    execution parts of [enhanced_volume_trader.py], with the properties the
    design document states about them.

    Numbers.  Python floats are read as exact rationals ([Q]); equality of
    computed values is [Qeq] ([==]).  [math.sqrt] is kept exact as well: a
    square root is represented by its radicand (see [root], and
    [root_gtb_spec] for its comparison against the real square root).
    Division is Python's: a zero divisor raises [ZeroDivisionError].

    Effects.  Objects are records, methods take the object and return the
    new one.  Exceptions are the [Raise] results of [result].  Clock
    readings ([time.time()]), dates and the answers of the exchange are
    inputs.  Logging calls have no effect on any value modelled here and
    are left out. *)

From Stdlib Require Import ZArith QArith Qabs Qminmax Qround Reals Qreals Psatz Lia.
From Stdlib Require Import List String Bool Sorted.
From stdpp Require Import base gmap strings.
Import ListNotations.

Local Open Scope Q_scope.

(** ** Python values *)

Inductive exn : Type :=
| ZeroDivisionError
| IndexError
| KeyError
| RequestError.

(** The result of running a method: a value, a raised exception, or (only
    for the polling loop, which is run on fuel) [OutOfFuel]. *)
Inductive result (A : Type) : Type :=
| Ok (a : A)
| Raise (e : exn)
| OutOfFuel.

Arguments Ok {A} a.
Arguments Raise {A} e.
Arguments OutOfFuel {A}.

Definition rbind {A B : Type} (r : result A) (k : A -> result B) : result B :=
  match r with
  | Ok a => k a
  | Raise e => Raise e
  | OutOfFuel => OutOfFuel
  end.

Notation "'let?' x ':=' r 'in' k" := (rbind r (fun x => k))
  (at level 10, x name, r at level 100, k at level 200).

(** Float comparisons [x < y] and [x > y]. *)
Definition Qltb (x y : Q) : bool := negb (Qle_bool y x).
Definition Qgtb (x y : Q) : bool := Qltb y x.

(** [min(x, y)]: the first argument wins a tie. *)
Definition py_min (x y : Q) : Q := if Qltb y x then y else x.

(** [x / y] on floats. *)
Definition py_div (x y : Q) : result Q :=
  if Qeq_bool y 0 then Raise ZeroDivisionError else Ok (x / y).

(** [sum(l)] and [len(l)] as a float. *)
Definition py_sum (l : list Q) : Q := fold_left Qplus l 0.
Definition py_len {A : Type} (l : list A) : Q := inject_Z (Z.of_nat (length l)).

(** [l[start:]]: a negative start counts from the end, and both ends clamp. *)
Definition py_slice_from {A : Type} (start : Z) (l : list A) : list A :=
  if (start <? 0)%Z
  then skipn (Z.to_nat (Z.max 0 (Z.of_nat (length l) + start))) l
  else skipn (Z.to_nat start) l.

(** [l[i]]: a negative index counts from the end; out of range raises. *)
Definition py_index {A : Type} (l : list A) (i : Z) : result A :=
  let j := if (i <? 0)%Z then (Z.of_nat (length l) + i)%Z else i in
  if (j <? 0)%Z then Raise IndexError
  else match nth_error l (Z.to_nat j) with
       | Some x => Ok x
       | None => Raise IndexError
       end.

(** [for i in range(lo, hi): body], threading the loop's variables [acc]. *)
Fixpoint for_range {S : Type} (lo count : nat) (body : nat -> S -> result S)
  (acc : S) : result S :=
  match count with
  | O => Ok acc
  | Datatypes.S count' =>
      let? acc' := body lo acc in for_range (Datatypes.S lo) count' body acc'
  end.

(** [math.sqrt(v)] for [v >= 0]: the non-negative real whose square is [v].
    The value is kept by its radicand, which makes the comparisons of the
    source with a float constant exact and executable. *)
Record root : Type := Sqrt { radicand : Q }.

(** [math.sqrt(v) > c]. *)
Definition root_gtb (r : root) (c : Q) : bool :=
  Qltb c 0 || Qltb (c * c) (radicand r).

(** The real number a [root] stands for. *)
Definition root_value (r : root) : R := sqrt (Q2R (radicand r)).

(** [collections.deque(maxlen=n).append(x)]: append on the right, then drop
    the leftmost element when the bound is exceeded. *)
Definition deque_append {A : Type} (maxlen : nat) (d : list A) (x : A) : list A :=
  let d' := d ++ [x] in
  if (maxlen <? length d')%nat then tl d' else d'.

(** ** trend_analyzer_simple.py: class TrendAnalyzer *)

Inductive Signal : Type := BULLISH | BEARISH | NEUTRAL_SIGNAL.
Inductive Direction : Type := LONG | SHORT | NEUTRAL.

Definition Signal_eqb (a b : Signal) : bool :=
  match a, b with
  | BULLISH, BULLISH | BEARISH, BEARISH | NEUTRAL_SIGNAL, NEUTRAL_SIGNAL => true
  | _, _ => false
  end.

Definition Direction_eqb (a b : Direction) : bool :=
  match a, b with
  | LONG, LONG | SHORT, SHORT | NEUTRAL, NEUTRAL => true
  | _, _ => false
  end.

Record TrendAnalyzer : Type := {
  window_size : nat;
  short_ma : Z;
  long_ma : Z;
  price_history : list Q;
  volume_history : list Q;
  timestamp_history : list Q;
  _short_ma_cache : option Q;
  _long_ma_cache : option Q;
  _rsi_cache : option Q;
  _last_update : Q
}.

(** [TrendAnalyzer.__init__]. *)
Definition TrendAnalyzer_init (window_size : nat) (short_ma long_ma : Z) : TrendAnalyzer :=
  {| window_size := window_size; short_ma := short_ma; long_ma := long_ma;
     price_history := []; volume_history := []; timestamp_history := [];
     _short_ma_cache := None; _long_ma_cache := None; _rsi_cache := None;
     _last_update := 0 |}.

Definition _clear_cache (self : TrendAnalyzer) : TrendAnalyzer :=
  {| window_size := window_size self; short_ma := short_ma self; long_ma := long_ma self;
     price_history := price_history self; volume_history := volume_history self;
     timestamp_history := timestamp_history self;
     _short_ma_cache := None; _long_ma_cache := None; _rsi_cache := None;
     _last_update := _last_update self |}.

(** [add_price_data(price, volume)]; [current_time] is what [time.time()]
    returns in the call. *)
Definition add_price_data (current_time price volume : Q) (self : TrendAnalyzer)
  : TrendAnalyzer :=
  let cleared :=
    _clear_cache
      {| window_size := window_size self; short_ma := short_ma self; long_ma := long_ma self;
         price_history := deque_append (window_size self) (price_history self) price;
         volume_history := deque_append (window_size self) (volume_history self) volume;
         timestamp_history :=
           deque_append (window_size self) (timestamp_history self) current_time;
         _short_ma_cache := _short_ma_cache self; _long_ma_cache := _long_ma_cache self;
         _rsi_cache := _rsi_cache self; _last_update := _last_update self |} in
  {| window_size := window_size cleared; short_ma := short_ma cleared;
     long_ma := long_ma cleared;
     price_history := price_history cleared; volume_history := volume_history cleared;
     timestamp_history := timestamp_history cleared;
     _short_ma_cache := _short_ma_cache cleared; _long_ma_cache := _long_ma_cache cleared;
     _rsi_cache := _rsi_cache cleared; _last_update := current_time |}.

(** [calculate_moving_average(period)]: [None] is "not enough data". *)
Definition calculate_moving_average (period : Z) (self : TrendAnalyzer)
  : result (option Q) :=
  if (Z.of_nat (length (price_history self)) <? period)%Z then Ok None
  else
    let recent_prices := py_slice_from (- period) (price_history self) in
    let? avg := py_div (py_sum recent_prices) (py_len recent_prices) in
    Ok (Some avg).

Definition set_short_ma_cache (v : option Q) (self : TrendAnalyzer) : TrendAnalyzer :=
  {| window_size := window_size self; short_ma := short_ma self; long_ma := long_ma self;
     price_history := price_history self; volume_history := volume_history self;
     timestamp_history := timestamp_history self;
     _short_ma_cache := v; _long_ma_cache := _long_ma_cache self;
     _rsi_cache := _rsi_cache self; _last_update := _last_update self |}.

Definition set_long_ma_cache (v : option Q) (self : TrendAnalyzer) : TrendAnalyzer :=
  {| window_size := window_size self; short_ma := short_ma self; long_ma := long_ma self;
     price_history := price_history self; volume_history := volume_history self;
     timestamp_history := timestamp_history self;
     _short_ma_cache := _short_ma_cache self; _long_ma_cache := v;
     _rsi_cache := _rsi_cache self; _last_update := _last_update self |}.

(** [get_short_ma()] and [get_long_ma()] fill their cache when it is [None]. *)
Definition get_short_ma (self : TrendAnalyzer) : result (option Q) * TrendAnalyzer :=
  match _short_ma_cache self with
  | Some v => (Ok (Some v), self)
  | None =>
      match calculate_moving_average (short_ma self) self with
      | Ok v => (Ok v, set_short_ma_cache v self)
      | Raise e => (Raise e, self)
      | OutOfFuel => (OutOfFuel, self)
      end
  end.

Definition get_long_ma (self : TrendAnalyzer) : result (option Q) * TrendAnalyzer :=
  match _long_ma_cache self with
  | Some v => (Ok (Some v), self)
  | None =>
      match calculate_moving_average (long_ma self) self with
      | Ok v => (Ok v, set_long_ma_cache v self)
      | Raise e => (Raise e, self)
      | OutOfFuel => (OutOfFuel, self)
      end
  end.

(** [calculate_price_momentum()]. *)
Definition calculate_price_momentum (self : TrendAnalyzer) : result Q :=
  if (length (price_history self) <? 2)%nat then Ok 0
  else
    let? current_price := py_index (price_history self) (-1) in
    let? previous_price := py_index (price_history self) (-2) in
    py_div (current_price - previous_price) previous_price.

(** The loop of [calculate_volatility]: one simple return per step. *)
Definition returns_loop (prices : list Q) : result (list Q) :=
  for_range 1 (length prices - 1)
    (fun i returns =>
       let? p := py_index prices (Z.of_nat i) in
       let? p_prev := py_index prices (Z.of_nat i - 1) in
       let? ret := py_div (p - p_prev) p_prev in
       Ok (returns ++ [ret]))
    [].

(** [calculate_volatility()]. *)
Definition calculate_volatility (self : TrendAnalyzer) : result root :=
  if (length (price_history self) <? 5)%nat then Ok (Sqrt 0)
  else
    let prices := py_slice_from (-10) (price_history self) in
    let? returns := returns_loop prices in
    match returns with
    | [] => Ok (Sqrt 0)
    | _ :: _ =>
        let? mean_return := py_div (py_sum returns) (py_len returns) in
        let? variance :=
          py_div (py_sum (map (fun r => (r - mean_return) ^ 2) returns)) (py_len returns) in
        Ok (Sqrt variance)
    end.

(** The loop of [calculate_rsi]: the lists [gains] and [losses]. *)
Definition gains_losses_loop (prices : list Q) : result (list Q * list Q) :=
  for_range 1 (length prices - 1)
    (fun i gl =>
       let? p := py_index prices (Z.of_nat i) in
       let? p_prev := py_index prices (Z.of_nat i - 1) in
       let change := p - p_prev in
       if Qgtb change 0
       then Ok (fst gl ++ [change], snd gl ++ [0])
       else Ok (fst gl ++ [0], snd gl ++ [- change]))
    ([], []).

(** [calculate_rsi(period)]. *)
Definition calculate_rsi (period : Z) (self : TrendAnalyzer) : result Q :=
  if (Z.of_nat (length (price_history self)) <? period + 1)%Z then Ok 50
  else
    let prices := py_slice_from (- (period + 1)) (price_history self) in
    let? gl := gains_losses_loop prices in
    let gains := fst gl in
    let losses := snd gl in
    match gains, losses with
    | [], _ | _, [] => Ok 50
    | _ :: _, _ :: _ =>
        let? avg_gain := py_div (py_sum gains) (py_len gains) in
        let? avg_loss := py_div (py_sum losses) (py_len losses) in
        if Qeq_bool avg_loss 0 then Ok 100
        else
          let? rs := py_div avg_gain avg_loss in
          let? q := py_div 100 (1 + rs) in
          Ok (100 - q)
    end.

(** [get_trend_signal()]: the signal and its strength.  The two moving
    averages go through their caches, so the analyzer is returned too. *)
Definition get_trend_signal (self : TrendAnalyzer)
  : result (Signal * Q) * TrendAnalyzer :=
  if (Z.of_nat (length (price_history self)) <? long_ma self)%Z
  then (Ok (NEUTRAL_SIGNAL, 0), self)
  else
    let (r_short, self1) := get_short_ma self in
    match r_short with
    | Raise e => (Raise e, self1)
    | OutOfFuel => (OutOfFuel, self1)
    | Ok short_ma =>
        let (r_long, self2) := get_long_ma self1 in
        match r_long with
        | Raise e => (Raise e, self2)
        | OutOfFuel => (OutOfFuel, self2)
        | Ok long_ma =>
            match short_ma, long_ma with
            | Some short_ma, Some long_ma =>
                (let? ma_diff := py_div (short_ma - long_ma) long_ma in
                 let? momentum := calculate_price_momentum self2 in
                 let? volatility := calculate_volatility self2 in
                 let strength := Qabs ma_diff + Qabs momentum * 0.5 in
                 let strength :=
                   if root_gtb volatility 0.02 then strength * 0.7 else strength in
                 if Qgtb ma_diff 0.001 && Qgtb momentum 0
                 then Ok (BULLISH, py_min strength 1)
                 else if Qltb ma_diff (-0.001) && Qltb momentum 0
                 then Ok (BEARISH, py_min strength 1)
                 else Ok (NEUTRAL_SIGNAL, py_min strength 1),
                 self2)
            | _, _ => (Ok (NEUTRAL_SIGNAL, 0), self2)
            end
        end
    end.

(** [get_position_direction()]. *)
Definition get_position_direction (self : TrendAnalyzer)
  : result Direction * TrendAnalyzer :=
  let (r, self1) := get_trend_signal self in
  (let? ss := r in
   let signal := fst ss in
   let strength := snd ss in
   if Qltb strength 0.2 then Ok NEUTRAL
   else match signal with
        | BULLISH => Ok LONG
        | BEARISH => Ok SHORT
        | NEUTRAL_SIGNAL => Ok NEUTRAL
        end,
   self1).

(** ** trend_analyzer_simple.py: class TrendBasedTradeDecision *)

(** The reason returned with a direction; the two trend reasons carry the
    strength that the source formats into the text. *)
Inductive Reason : Type :=
| ReasonCoolingDown
| ReasonSignalTooWeak
| ReasonTooVolatile
| ReasonRsiOverboughtAvoidLong
| ReasonRsiOverboughtGoShort
| ReasonRsiOversoldAvoidShort
| ReasonRsiOversoldGoLong
| ReasonBullishTrend (strength : Q)
| ReasonBearishTrend (strength : Q)
| ReasonNoClearTrend.

(** The decider's own fields.  Its [trend_analyzer] attribute is a
    reference to the analyzer that the trader also feeds: the analyzer is
    therefore passed to, and returned by, each call. *)
Record TrendBasedTradeDecision : Type := {
  last_decision_time : Q;
  decision_cooldown : Q
}.

Definition TrendBasedTradeDecision_init : TrendBasedTradeDecision :=
  {| last_decision_time := 0; decision_cooldown := 5 |}.

Definition set_last_decision_time (t : Q) (self : TrendBasedTradeDecision)
  : TrendBasedTradeDecision :=
  {| last_decision_time := t; decision_cooldown := decision_cooldown self |}.

(** [get_optimal_trade_direction(current_price, market_data)];
    [current_time] is what [time.time()] returns in the call.  Neither
    argument of the source is read by its body. *)
Definition get_optimal_trade_direction (current_time : Q)
  (self : TrendBasedTradeDecision) (trend_analyzer : TrendAnalyzer)
  : result (Direction * Reason) * TrendBasedTradeDecision * TrendAnalyzer :=
  if Qltb (current_time - last_decision_time self) (decision_cooldown self)
  then (Ok (NEUTRAL, ReasonCoolingDown), self, trend_analyzer)
  else
    let (r_signal, ta1) := get_trend_signal trend_analyzer in
    match r_signal with
    | Raise e => (Raise e, self, ta1)
    | OutOfFuel => (OutOfFuel, self, ta1)
    | Ok (signal, strength) =>
        let (r_dir, ta2) := get_position_direction ta1 in
        match r_dir with
        | Raise e => (Raise e, self, ta2)
        | OutOfFuel => (OutOfFuel, self, ta2)
        | Ok position_direction =>
            match calculate_rsi 14 ta2 with
            | Raise e => (Raise e, self, ta2)
            | OutOfFuel => (OutOfFuel, self, ta2)
            | Ok rsi =>
            match calculate_price_momentum ta2 with
            | Raise e => (Raise e, self, ta2)
            | OutOfFuel => (OutOfFuel, self, ta2)
            | Ok momentum =>
            match calculate_volatility ta2 with
            | Raise e => (Raise e, self, ta2)
            | OutOfFuel => (OutOfFuel, self, ta2)
            | Ok volatility =>
                if Qltb strength 0.1
                then (Ok (NEUTRAL, ReasonSignalTooWeak), self, ta2)
                else if root_gtb volatility 0.05
                then (Ok (NEUTRAL, ReasonTooVolatile), self, ta2)
                else if Qgtb rsi 80
                then
                  if Direction_eqb position_direction LONG
                  then (Ok (NEUTRAL, ReasonRsiOverboughtAvoidLong), self, ta2)
                  else (Ok (SHORT, ReasonRsiOverboughtGoShort), self, ta2)
                else if Qltb rsi 20
                then
                  if Direction_eqb position_direction SHORT
                  then (Ok (NEUTRAL, ReasonRsiOversoldAvoidShort), self, ta2)
                  else (Ok (LONG, ReasonRsiOversoldGoLong), self, ta2)
                else if Signal_eqb signal BULLISH && Qgtb momentum 0.001
                then (Ok (LONG, ReasonBullishTrend strength),
                      set_last_decision_time current_time self, ta2)
                else if Signal_eqb signal BEARISH && Qltb momentum (-0.001)
                then (Ok (SHORT, ReasonBearishTrend strength),
                      set_last_decision_time current_time self, ta2)
                else (Ok (NEUTRAL, ReasonNoClearTrend), self, ta2)
            end end end
        end
    end.

(** [calculate_position_size(account_balance, risk_ratio=0.02)]. *)
Definition calculate_position_size (account_balance risk_ratio : Q) : result Q :=
  let risk_amount := account_balance * risk_ratio in
  let stop_loss_ratio := 0.02 in
  let? max_position := py_div risk_amount stop_loss_ratio in
  let max_position := py_min max_position (account_balance * 0.1) in
  Ok max_position.

(** ** config.py *)

(** The keys of [TRADING_CONFIG] that the risk manager reads.  The three
    drawdown keys are read with [.get(key, default)], so they may be absent. *)
Record TradingConfig : Type := {
  MAX_DAILY_LOSS : Q;
  MAX_CONSECUTIVE_LOSSES : Z;
  MAX_POSITION_DRAWDOWN : option Q;
  DRAWDOWN_WARNING_THRESHOLD : option Q;
  FORCE_CLOSE_ON_DRAWDOWN : option bool
}.

Definition TRADING_CONFIG : TradingConfig :=
  {| MAX_DAILY_LOSS := 100;
     MAX_CONSECUTIVE_LOSSES := 700;
     MAX_POSITION_DRAWDOWN := Some 0.02;
     DRAWDOWN_WARNING_THRESHOLD := Some 0.016;
     FORCE_CLOSE_ON_DRAWDOWN := Some true |}.

(** [STRATEGY_CONFIG["LIMIT_ORDER"]]; [MAX_WAIT_TIME] is read with
    [.get("MAX_WAIT_TIME", 5)]. *)
Record LimitOrderConfig : Type := {
  BUY_PRICE_OFFSET : Q;
  SELL_PRICE_OFFSET : Q;
  TIME_IN_FORCE : string;
  MAX_WAIT_TIME : option Q
}.

Definition LIMIT_ORDER : LimitOrderConfig :=
  {| BUY_PRICE_OFFSET := 0.0001;
     SELL_PRICE_OFFSET := 0.0001;
     TIME_IN_FORCE := "IOC";
     MAX_WAIT_TIME := Some 5 |}.

(** [d.get(key, default)] on an optional configuration key. *)
Definition get_default {A : Type} (v : option A) (default : A) : A :=
  match v with Some x => x | None => default end.

(** ** enhanced_volume_trader.py: class TradingStatistics *)

Module TradingStatistics.

Record t : Type := {
  total_trades : Z;
  successful_trades : Z;
  failed_trades : Z;
  total_volume : Q;
  total_pnl : Q;
  daily_trades : Z;
  daily_pnl : Q;
  last_reset_date : Z;
  consecutive_losses : Z;
  max_consecutive_losses : Z;
  total_fees : Q;
  maker_trades : Z;
  taker_trades : Z;
  daily_fees : Q
}.

(** [reset_stats()]; [today] is [datetime.now().date()] as a day number. *)
Definition reset_stats (today : Z) : t :=
  {| total_trades := 0; successful_trades := 0; failed_trades := 0;
     total_volume := 0; total_pnl := 0; daily_trades := 0; daily_pnl := 0;
     last_reset_date := today; consecutive_losses := 0;
     max_consecutive_losses := 0; total_fees := 0; maker_trades := 0;
     taker_trades := 0; daily_fees := 0 |}.

(** [add_trade(success, volume, pnl, is_maker, fee)]. *)
Definition add_trade (current_date : Z) (success : bool) (volume pnl : Q)
  (is_maker : bool) (fee : Q) (self : t) : t :=
  let rollover := (last_reset_date self <? current_date)%Z in
  let daily_trades0 := if rollover then 0%Z else daily_trades self in
  let daily_pnl0 := if rollover then 0 else daily_pnl self in
  let daily_fees0 := if rollover then 0 else daily_fees self in
  let losses := (consecutive_losses self + 1)%Z in
  {| total_trades := total_trades self + 1;
     successful_trades :=
       if success then (successful_trades self + 1)%Z else successful_trades self;
     failed_trades := if success then failed_trades self else (failed_trades self + 1)%Z;
     total_volume := total_volume self + volume;
     total_pnl := total_pnl self + pnl;
     daily_trades := daily_trades0 + 1;
     daily_pnl := daily_pnl0 + pnl;
     last_reset_date := if rollover then current_date else last_reset_date self;
     consecutive_losses := if success then 0%Z else losses;
     max_consecutive_losses :=
       if success then max_consecutive_losses self
       else Z.max (max_consecutive_losses self) losses;
     total_fees := total_fees self + fee;
     maker_trades := if is_maker then (maker_trades self + 1)%Z else maker_trades self;
     taker_trades := if is_maker then taker_trades self else (taker_trades self + 1)%Z;
     daily_fees := daily_fees0 + fee |}.

End TradingStatistics.

(** ** enhanced_volume_trader.py: class RiskManager *)

Module RiskManager.

(** The manager's own fields.  Its [stats] attribute is a reference to the
    trader's statistics object, which the trader updates after every cycle:
    the current statistics are passed to [check_risk_limits]. *)
Record t : Type := {
  emergency_stop : bool;
  daily_loss : Q;
  last_reset_date : Z;
  position_peak_value : gmap string Q;
  position_entry_value : gmap string Q;
  max_drawdown_percent : Q;
  drawdown_warning_threshold : Q;
  force_close_enabled : bool;
  position_monitoring_enabled : bool
}.

(** [RiskManager.__init__]. *)
Definition init (cfg : TradingConfig) (today : Z) : t :=
  {| emergency_stop := false;
     daily_loss := 0;
     last_reset_date := today;
     position_peak_value := ∅;
     position_entry_value := ∅;
     max_drawdown_percent := get_default (MAX_POSITION_DRAWDOWN cfg) 0.06;
     drawdown_warning_threshold := get_default (DRAWDOWN_WARNING_THRESHOLD cfg) 0.048;
     force_close_enabled := get_default (FORCE_CLOSE_ON_DRAWDOWN cfg) true;
     position_monitoring_enabled := true |}.

Definition set_position_records (peak entry : gmap string Q) (self : t) : t :=
  {| emergency_stop := emergency_stop self;
     daily_loss := daily_loss self;
     last_reset_date := last_reset_date self;
     position_peak_value := peak;
     position_entry_value := entry;
     max_drawdown_percent := max_drawdown_percent self;
     drawdown_warning_threshold := drawdown_warning_threshold self;
     force_close_enabled := force_close_enabled self;
     position_monitoring_enabled := position_monitoring_enabled self |}.

(** [update_position_value(symbol, current_price, position_size)]. *)
Definition update_position_value (symbol : string) (current_price position_size : Q)
  (self : t) : result bool * t :=
  if Qltb (Qabs position_size) 0.0001
  then
    (Ok true,
     set_position_records (delete symbol (position_peak_value self))
       (delete symbol (position_entry_value self)) self)
  else
    let current_value := Qabs (position_size * current_price) in
    match position_entry_value self !! symbol with
    | None =>
        (Ok true,
         set_position_records (<[symbol := current_value]> (position_peak_value self))
           (<[symbol := current_value]> (position_entry_value self)) self)
    | Some _ =>
        match position_peak_value self !! symbol with
        | None => (Raise KeyError, self)
        | Some old_peak =>
            let self1 :=
              if Qgtb current_value old_peak
              then set_position_records
                     (<[symbol := current_value]> (position_peak_value self))
                     (position_entry_value self) self
              else self in
            match position_peak_value self1 !! symbol with
            | None => (Raise KeyError, self1)
            | Some peak_value =>
                match py_div (peak_value - current_value) peak_value with
                | Raise e => (Raise e, self1)
                | OutOfFuel => (OutOfFuel, self1)
                | Ok drawdown =>
                    if Qgtb drawdown (max_drawdown_percent self1)
                    then
                      if force_close_enabled self1
                      then (Ok false, self1)
                      else (Ok true, self1)
                    else (Ok true, self1)
                end
            end
        end
    end.

(** [check_risk_limits()]; [current_date] is [datetime.now().date()] and
    [stats] is the statistics object the manager refers to. *)
Definition check_risk_limits (cfg : TradingConfig) (current_date : Z)
  (stats : TradingStatistics.t) (self : t) : bool * t :=
  let rollover := (last_reset_date self <? current_date)%Z in
  let self1 :=
    {| emergency_stop := emergency_stop self;
       daily_loss := if rollover then 0 else daily_loss self;
       last_reset_date := if rollover then current_date else last_reset_date self;
       position_peak_value := position_peak_value self;
       position_entry_value := position_entry_value self;
       max_drawdown_percent := max_drawdown_percent self;
       drawdown_warning_threshold := drawdown_warning_threshold self;
       force_close_enabled := force_close_enabled self;
       position_monitoring_enabled := position_monitoring_enabled self |} in
  let stop :=
    {| emergency_stop := true;
       daily_loss := daily_loss self1;
       last_reset_date := last_reset_date self1;
       position_peak_value := position_peak_value self1;
       position_entry_value := position_entry_value self1;
       max_drawdown_percent := max_drawdown_percent self1;
       drawdown_warning_threshold := drawdown_warning_threshold self1;
       force_close_enabled := force_close_enabled self1;
       position_monitoring_enabled := position_monitoring_enabled self1 |} in
  if Qgtb (Qabs (TradingStatistics.daily_pnl stats)) (MAX_DAILY_LOSS cfg)
  then (false, stop)
  else if (MAX_CONSECUTIVE_LOSSES cfg <=? TradingStatistics.consecutive_losses stats)%Z
  then (false, stop)
  else (true, self1).

(** [should_stop_trading()]. *)
Definition should_stop_trading (self : t) : bool := emergency_stop self.

End RiskManager.

(** ** The exchange client seen from the trader

    [EnhancedAsterDexAPI] performs HTTP requests; the trader only looks at
    what its methods return.  A call returns the decoded JSON object of the
    response, or [None] when the request failed, or it raises. *)

Inductive json : Type :=
| JStr (s : string)
| JNum (n : Z)
| JBool (b : bool).

#[global] Instance json_eq_dec : EqDecision json.
Proof. solve_decision. Defined.

Inductive api_call : Type :=
| place_limit_order (symbol side : string) (quantity price : Q)
    (time_in_force : string) (reduce_only : bool)
| place_market_order (symbol side : string) (quantity : Q) (reduce_only : bool)
| get_order_status (symbol : string) (order_id : json)
| cancel_order (symbol : string) (order_id : json).

Inductive api_answer : Type :=
| Returns (response : option (gmap string json))
| Throws (e : exn).

(** The state of the outside world: the clock, what the exchange will
    answer to the n-th call of the run (with the time the call takes, in
    milliseconds), and the calls made so far, oldest first. *)
Record Exchange : Type := {
  clock : Q;
  answers : nat -> N * api_answer;
  calls : list (api_call * api_answer)
}.

(** One call of a method of [self.api]. *)
Definition send (c : api_call) (ex : Exchange) : api_answer * Exchange :=
  let (latency, a) := answers ex (length (calls ex)) in
  (a,
   {| clock := clock ex + inject_Z (Z.of_N latency) / 1000;
      answers := answers ex;
      calls := calls ex ++ [(c, a)] |}).

(** [time.sleep(seconds)]. *)
Definition sleep (seconds : Q) (ex : Exchange) : Exchange :=
  {| clock := clock ex + seconds; answers := answers ex; calls := calls ex |}.

(** Truth value of a response: [None] and the empty object are false. *)
Definition truthy (response : option (gmap string json)) : bool :=
  match response with
  | None => false
  | Some d => negb (bool_decide (d = ∅))
  end.

(** [order and 'orderId' in order], giving [order['orderId']]. *)
Definition order_id_of (response : option (gmap string json)) : option json :=
  match response with
  | None => None
  | Some d => d !! "orderId"
  end.

(** [order_status.get('status', '')]. *)
Definition status_of (d : gmap string json) : json :=
  match d !! "status" with
  | Some s => s
  | None => JStr ""
  end.

(** [round(x, ndigits)]: to the nearest multiple of [10 ** -ndigits], a tie
    going to the even one. *)
Definition round_half_even (x : Q) : Z :=
  let f := Qfloor x in
  let r := x - inject_Z f in
  if Qltb r (1 # 2) then f
  else if Qgtb r (1 # 2) then (f + 1)%Z
  else if Z.even f then f else (f + 1)%Z.

Definition py_round (x : Q) (ndigits : N) : Q :=
  let scale := inject_Z (10 ^ Z.of_N ndigits) in
  inject_Z (round_half_even (x * scale)) / scale.

(** ** enhanced_volume_trader.py: class EnhancedVolumeTrader *)

(** The fields of the trader that an order cycle touches; [api] stands for
    the exchange behind [self.api]. *)
Record EnhancedVolumeTrader : Type := {
  trade_quantity : Q;
  positions : gmap string Q;
  api : Exchange
}.

Definition set_api (ex : Exchange) (self : EnhancedVolumeTrader) : EnhancedVolumeTrader :=
  {| trade_quantity := trade_quantity self; positions := positions self; api := ex |}.

(** [self.positions[symbol] = self.positions.get(symbol, 0) + delta]. *)
Definition add_position (symbol : string) (delta : Q) (self : EnhancedVolumeTrader)
  : EnhancedVolumeTrader :=
  {| trade_quantity := trade_quantity self;
     positions :=
       <[symbol := get_default (positions self !! symbol) 0 + delta]> (positions self);
     api := api self |}.

(** The [while] loop of [wait_for_order_fill], run on [fuel] iterations. *)
Fixpoint wait_loop (fuel : nat) (symbol : string) (order_id : json)
  (start_time max_wait_time : Q) (ex : Exchange) : result bool * Exchange :=
  if Qltb (clock ex - start_time) max_wait_time
  then
    match fuel with
    | O => (OutOfFuel, ex)
    | S fuel' =>
        let (a, ex1) := send (get_order_status symbol order_id) ex in
        match a with
        | Throws _ => (Ok false, ex1)
        | Returns order_status =>
            let continue :=
              wait_loop fuel' symbol order_id start_time max_wait_time (sleep 0.1 ex1) in
            match order_status with
            | None => continue
            | Some d =>
                if negb (truthy order_status) then continue
                else
                  let status := status_of d in
                  if bool_decide (status = JStr "FILLED") then (Ok true, ex1)
                  else if bool_decide (status = JStr "CANCELED")
                          || bool_decide (status = JStr "REJECTED")
                          || bool_decide (status = JStr "EXPIRED")
                  then (Ok false, ex1)
                  else continue
            end
        end
    end
  else (Ok false, ex).

(** Every iteration that does not return sleeps 100 ms, so the loop runs at
    most this many times. *)
Definition poll_budget (max_wait_time : Q) : nat :=
  Z.to_nat (Qceiling (max_wait_time / 0.1)).

(** [wait_for_order_fill(symbol, order_id, max_wait_time)]. *)
Definition wait_for_order_fill (symbol : string) (order_id : json) (max_wait_time : Q)
  (ex : Exchange) : result bool * Exchange :=
  wait_loop (poll_budget max_wait_time) symbol order_id (clock ex) max_wait_time ex.

(** The outcome of a cycle: [(success, is_maker, estimated_fee)]. *)
Definition outcome : Type := bool * bool * Q.
Definition failure : outcome := (false, false, 0).

(** [execute_long_strategy(symbol, bid, ask, spread_data)]. *)
Definition execute_long_strategy (cfg : LimitOrderConfig) (symbol : string) (bid ask : Q)
  (self : EnhancedVolumeTrader) : result outcome * EnhancedVolumeTrader :=
  let buy_offset := BUY_PRICE_OFFSET cfg in
  let sell_offset := SELL_PRICE_OFFSET cfg in
  let time_in_force := TIME_IN_FORCE cfg in
  let max_wait_time := get_default (MAX_WAIT_TIME cfg) 5 in
  let buy_price := py_round (bid * (1 + buy_offset * 0.3)) 8 in
  let sell_price := py_round (ask * (1 + sell_offset * 2)) 8 in
  let (buy_order, ex1) :=
    send (place_limit_order symbol "BUY" (trade_quantity self) buy_price time_in_force false)
      (api self) in
  match buy_order with
  | Throws _ => (Ok failure, set_api ex1 self)
  | Returns buy_order =>
  match (if truthy buy_order then order_id_of buy_order else None) with
  | None => (Ok failure, set_api ex1 self)
  | Some buy_order_id =>
  let (buy_filled, ex2) := wait_for_order_fill symbol buy_order_id max_wait_time ex1 in
  match buy_filled with
  | OutOfFuel => (OutOfFuel, set_api ex2 self)
  | Raise _ => (Ok failure, set_api ex2 self)
  | Ok false =>
      let (_, ex3) := send (cancel_order symbol buy_order_id) ex2 in
      (Ok failure, set_api ex3 self)
  | Ok true =>
  let (sell_order, ex3) :=
    send (place_limit_order symbol "SELL" (trade_quantity self) sell_price "GTC" true) ex2 in
  match sell_order with
  | Throws _ => (Ok failure, set_api ex3 self)
  | Returns sell_order =>
  match (if truthy sell_order then order_id_of sell_order else None) with
  | None => (Ok failure, add_position symbol (trade_quantity self) (set_api ex3 self))
  | Some sell_order_id =>
  let (sell_filled, ex4) :=
    wait_for_order_fill symbol sell_order_id (max_wait_time * 2) ex3 in
  match sell_filled with
  | OutOfFuel => (OutOfFuel, set_api ex4 self)
  | Raise _ => (Ok failure, set_api ex4 self)
  | Ok false =>
      let (cancelled, ex5) := send (cancel_order symbol sell_order_id) ex4 in
      match cancelled with
      | Throws _ =>
          (Ok failure, add_position symbol (trade_quantity self) (set_api ex5 self))
      | Returns _ =>
          let (market_sell, ex6) :=
            send (place_market_order symbol "SELL" (trade_quantity self) true) ex5 in
          match market_sell with
          | Throws _ =>
              (Ok failure, add_position symbol (trade_quantity self) (set_api ex6 self))
          | Returns market_sell =>
              if truthy market_sell
              then
                let estimated_fee := trade_quantity self * buy_price * 0.0003 in
                (Ok (true, false, estimated_fee), set_api ex6 self)
              else
                (Ok failure, add_position symbol (trade_quantity self) (set_api ex6 self))
          end
      end
  | Ok true =>
      let estimated_fee :=
        trade_quantity self * (buy_price + sell_price) * 0.0002 * 0.8 in
      (Ok (true, true, estimated_fee), set_api ex4 self)
  end end end end end end.

(** [execute_short_strategy(symbol, bid, ask, spread_data)]. *)
Definition execute_short_strategy (cfg : LimitOrderConfig) (symbol : string) (bid ask : Q)
  (self : EnhancedVolumeTrader) : result outcome * EnhancedVolumeTrader :=
  let buy_offset := BUY_PRICE_OFFSET cfg in
  let sell_offset := SELL_PRICE_OFFSET cfg in
  let time_in_force := TIME_IN_FORCE cfg in
  let max_wait_time := get_default (MAX_WAIT_TIME cfg) 5 in
  let buy_price := py_round (bid * (1 - buy_offset * 2)) 8 in
  let sell_price := py_round (ask * (1 - sell_offset * 0.3)) 8 in
  let (sell_order, ex1) :=
    send (place_limit_order symbol "SELL" (trade_quantity self) sell_price time_in_force false)
      (api self) in
  match sell_order with
  | Throws _ => (Ok failure, set_api ex1 self)
  | Returns sell_order =>
  match (if truthy sell_order then order_id_of sell_order else None) with
  | None => (Ok failure, set_api ex1 self)
  | Some sell_order_id =>
  let (sell_filled, ex2) := wait_for_order_fill symbol sell_order_id max_wait_time ex1 in
  match sell_filled with
  | OutOfFuel => (OutOfFuel, set_api ex2 self)
  | Raise _ => (Ok failure, set_api ex2 self)
  | Ok false =>
      let (_, ex3) := send (cancel_order symbol sell_order_id) ex2 in
      (Ok failure, set_api ex3 self)
  | Ok true =>
  let (buy_order, ex3) :=
    send (place_limit_order symbol "BUY" (trade_quantity self) buy_price "GTC" true) ex2 in
  match buy_order with
  | Throws _ => (Ok failure, set_api ex3 self)
  | Returns buy_order =>
  match (if truthy buy_order then order_id_of buy_order else None) with
  | None => (Ok failure, add_position symbol (- trade_quantity self) (set_api ex3 self))
  | Some buy_order_id =>
  let (buy_filled, ex4) :=
    wait_for_order_fill symbol buy_order_id (max_wait_time * 2) ex3 in
  match buy_filled with
  | OutOfFuel => (OutOfFuel, set_api ex4 self)
  | Raise _ => (Ok failure, set_api ex4 self)
  | Ok false =>
      let (cancelled, ex5) := send (cancel_order symbol buy_order_id) ex4 in
      match cancelled with
      | Throws _ =>
          (Ok failure, add_position symbol (- trade_quantity self) (set_api ex5 self))
      | Returns _ =>
          let (market_buy, ex6) :=
            send (place_market_order symbol "BUY" (trade_quantity self) true) ex5 in
          match market_buy with
          | Throws _ =>
              (Ok failure, add_position symbol (- trade_quantity self) (set_api ex6 self))
          | Returns market_buy =>
              if truthy market_buy
              then
                let estimated_fee := trade_quantity self * sell_price * 0.0003 in
                (Ok (true, false, estimated_fee), set_api ex6 self)
              else
                (Ok failure, add_position symbol (- trade_quantity self) (set_api ex6 self))
          end
      end
  | Ok true =>
      let estimated_fee :=
        trade_quantity self * (buy_price + sell_price) * 0.0002 * 0.8 in
      (Ok (true, true, estimated_fee), set_api ex4 self)
  end end end end end end.

(** The keys of [spread_data] that a strategy reads, both with
    [.get(key, 0)]. *)
Record SpreadData : Type := {
  bid_qty : option Q;
  ask_qty : option Q
}.

(** [use_optimized_limit_strategy(symbol, bid, ask, spread_data)]. *)
Definition use_optimized_limit_strategy (cfg : LimitOrderConfig) (symbol : string)
  (bid ask : Q) (spread_data : SpreadData) (self : EnhancedVolumeTrader)
  : result outcome * EnhancedVolumeTrader :=
  let buy_offset := BUY_PRICE_OFFSET cfg in
  let sell_offset := SELL_PRICE_OFFSET cfg in
  let time_in_force := TIME_IN_FORCE cfg in
  let max_wait_time := get_default (MAX_WAIT_TIME cfg) 5 in
  let bid_qty := get_default (bid_qty spread_data) 0 in
  let ask_qty := get_default (ask_qty spread_data) 0 in
  let buy_price :=
    if Qgtb bid_qty ask_qty
    then py_round (bid * (1 + buy_offset * 0.5)) 8
    else py_round (bid * (1 + buy_offset)) 8 in
  let sell_price :=
    if Qgtb bid_qty ask_qty
    then py_round (ask * (1 - sell_offset)) 8
    else py_round (ask * (1 - sell_offset * 0.5)) 8 in
  let (buy_order, ex1) :=
    send (place_limit_order symbol "BUY" (trade_quantity self) buy_price time_in_force false)
      (api self) in
  match buy_order with
  | Throws _ => (Ok failure, set_api ex1 self)
  | Returns buy_order =>
  match (if truthy buy_order then order_id_of buy_order else None) with
  | None => (Ok failure, set_api ex1 self)
  | Some buy_order_id =>
  let (buy_filled, ex2) := wait_for_order_fill symbol buy_order_id max_wait_time ex1 in
  match buy_filled with
  | OutOfFuel => (OutOfFuel, set_api ex2 self)
  | Raise _ => (Ok failure, set_api ex2 self)
  | Ok false =>
      let (_, ex3) := send (cancel_order symbol buy_order_id) ex2 in
      (Ok failure, set_api ex3 self)
  | Ok true =>
  let (sell_order, ex3) :=
    send (place_limit_order symbol "SELL" (trade_quantity self) sell_price time_in_force true)
      ex2 in
  match sell_order with
  | Throws _ => (Ok failure, set_api ex3 self)
  | Returns sell_order =>
  match (if truthy sell_order then order_id_of sell_order else None) with
  | None => (Ok failure, add_position symbol (trade_quantity self) (set_api ex3 self))
  | Some sell_order_id =>
  let (sell_filled, ex4) := wait_for_order_fill symbol sell_order_id max_wait_time ex3 in
  match sell_filled with
  | OutOfFuel => (OutOfFuel, set_api ex4 self)
  | Raise _ => (Ok failure, set_api ex4 self)
  | Ok false =>
      let (_, ex5) := send (cancel_order symbol sell_order_id) ex4 in
      (Ok failure, add_position symbol (trade_quantity self) (set_api ex5 self))
  | Ok true =>
      let estimated_maker_fee_rate := 0.0002 in
      let estimated_fee :=
        trade_quantity self * (buy_price + sell_price) * estimated_maker_fee_rate in
      (Ok (true, true, estimated_fee), set_api ex4 self)
  end end end end end end.

(** [execute_traditional_volume_trade(symbol, bid, ask, spread_data)]. *)
Definition execute_traditional_volume_trade (cfg : LimitOrderConfig) (symbol : string)
  (bid ask : Q) (spread_data : SpreadData) (self : EnhancedVolumeTrader)
  : result outcome * EnhancedVolumeTrader :=
  use_optimized_limit_strategy cfg symbol bid ask spread_data self.

(** [execute_directional_trade(symbol, direction, bid, ask, spread_data)]. *)
Definition execute_directional_trade (cfg : LimitOrderConfig) (symbol : string)
  (direction : Direction) (bid ask : Q) (spread_data : SpreadData)
  (self : EnhancedVolumeTrader) : result outcome * EnhancedVolumeTrader :=
  let (r, self1) :=
    match direction with
    | LONG => execute_long_strategy cfg symbol bid ask self
    | SHORT => execute_short_strategy cfg symbol bid ask self
    | NEUTRAL => execute_traditional_volume_trade cfg symbol bid ask spread_data self
    end in
  match r with
  | Raise _ => (Ok failure, self1)
  | _ => (r, self1)
  end.

(** ** Runs: sequences of calls *)

(** One sample given to [add_price_data]: the clock reading, the price and
    the volume. *)
Record Sample : Type := {
  sample_time : Q;
  sample_price : Q;
  sample_volume : Q
}.

(** The analyzer after a sequence of [add_price_data] calls. *)
Definition add_all (samples : list Sample) (self : TrendAnalyzer) : TrendAnalyzer :=
  fold_left
    (fun ta s => add_price_data (sample_time s) (sample_price s) (sample_volume s) ta)
    samples self.

(** What the trader does with its analyzer and its decider: feed a sample,
    or ask for a direction at some clock reading. *)
Inductive Action : Type :=
| Feed (s : Sample)
| Decide (current_time : Q).

(** Runs the actions in order and collects, oldest first, what each
    [Decide] returned, with its clock reading. *)
Fixpoint run_decisions (actions : list Action) (decision : TrendBasedTradeDecision)
  (ta : TrendAnalyzer) : list (Q * result (Direction * Reason)) :=
  match actions with
  | [] => []
  | Feed s :: rest =>
      run_decisions rest decision
        (add_price_data (sample_time s) (sample_price s) (sample_volume s) ta)
  | Decide t :: rest =>
      let '(r, decision1, ta1) := get_optimal_trade_direction t decision ta in
      (t, r) :: run_decisions rest decision1 ta1
  end.

(** One call of [update_position_value]: symbol, price, position size. *)
Record PositionUpdate : Type := {
  upd_symbol : string;
  upd_price : Q;
  upd_size : Q
}.

(** The risk manager after a sequence of [update_position_value] calls; a
    call that raises leaves the manager as it was when it raised. *)
Definition update_all (updates : list PositionUpdate) (self : RiskManager.t)
  : RiskManager.t :=
  fold_left
    (fun rm u =>
       snd (RiskManager.update_position_value (upd_symbol u) (upd_price u) (upd_size u) rm))
    updates self.

(** ** Reference definitions, in the words of the design document *)

(** The last [n] elements of a list, or all of it when it is shorter. *)
Definition last_n {A : Type} (n : nat) (l : list A) : list A :=
  skipn (length l - n) l.

(** Simple one-step returns [(p1 - p0) / p0] of consecutive prices. *)
Fixpoint simple_returns (prices : list Q) : result (list Q) :=
  match prices with
  | p0 :: ((p1 :: _) as rest) =>
      let? r := py_div (p1 - p0) p0 in
      let? rs := simple_returns rest in
      Ok (r :: rs)
  | _ => Ok []
  end.

Fixpoint Qsum (l : list Q) : Q :=
  match l with
  | [] => 0
  | x :: l' => x + Qsum l'
  end.

Definition squared_deviations (l : list Q) : Q :=
  let m := Qsum l / py_len l in
  Qsum (map (fun x => (x - m) * (x - m)) l).

(** Standard deviation of a sample: divisor [n - 1]. *)
Definition sample_stdev (l : list Q) : result root :=
  let? v := py_div (squared_deviations l) (py_len l - 1) in Ok (Sqrt v).

(** Standard deviation of a population: divisor [n]. *)
Definition population_stdev (l : list Q) : result root :=
  let? v := py_div (squared_deviations l) (py_len l) in Ok (Sqrt v).

(** "The sample standard deviation of simple returns over the last
    min(10, available) samples." *)
Definition volatility_as_specified (history : list Q) : result root :=
  let? rs := simple_returns (last_n (Nat.min 10 (length history)) history) in
  sample_stdev rs.

(** What [calculate_volatility] computes: zero below five samples, else
    the population standard deviation of the same returns. *)
Definition volatility_as_computed (history : list Q) : result root :=
  if (length history <? 5)%nat then Ok (Sqrt 0)
  else
    let? rs := simple_returns (last_n (Nat.min 10 (length history)) history) in
    population_stdev rs.

(** Two roots are the same number when their radicands are. *)
Definition root_eq (r1 r2 : root) : Prop := radicand r1 == radicand r2.

(** Two runs agree: the same exception, or equal values. *)
Definition agree {A : Type} (R : A -> A -> Prop) (r1 r2 : result A) : Prop :=
  match r1, r2 with
  | Ok a, Ok b => R a b
  | Raise e1, Raise e2 => e1 = e2
  | OutOfFuel, OutOfFuel => True
  | _, _ => False
  end.

(** The losses of consecutive prices: the size of each fall, zero for a
    rise. *)
Fixpoint losses_of (prices : list Q) : list Q :=
  match prices with
  | p0 :: ((p1 :: _) as rest) =>
      (if Qltb p1 p0 then p0 - p1 else 0) :: losses_of rest
  | _ => []
  end.

(** The average loss over the trailing [period + 1] samples; there is none
    when the history is shorter or when the samples hold no price change. *)
Definition average_loss (period : nat) (history : list Q) : option Q :=
  if (length history <? period + 1)%nat then None
  else
    match losses_of (last_n (period + 1) history) with
    | [] => None
    | (_ :: _) as losses => Some (Qsum losses / py_len losses)
    end.

(** ** The order protocol, read off the calls made *)

(** A limit order of [side] for [quantity] was placed, the exchange gave
    it an id, and a status query for that id answered FILLED. *)
Definition limit_leg_filled (symbol side : string) (quantity : Q)
  (evs : list (api_call * api_answer)) : Prop :=
  exists price tif reduce_only order order_id st,
    In (place_limit_order symbol side quantity price tif reduce_only,
        Returns (Some order)) evs
    /\ order !! "orderId" = Some order_id
    /\ In (get_order_status symbol order_id, Returns (Some st)) evs
    /\ st !! "status" = Some (JStr "FILLED").

(** A reduce-only market order of [side] for [quantity] was placed and the
    call returned a non-empty object.  This is all that a cycle looks at
    after its market fallback: the status in the object is not read. *)
Definition market_fallback_answered (symbol side : string) (quantity : Q)
  (evs : list (api_call * api_answer)) : Prop :=
  exists response,
    In (place_market_order symbol side quantity true, Returns (Some response)) evs
    /\ response <> ∅.

(** "Reached a FILLED state via the market-order fallback", in the words
    of the specification: a market order of [side] for [quantity] was
    placed and the exchange reported it FILLED, in its answer to the order
    or in its answer to a status query for the id of the order. *)
Definition market_fallback_reached_filled (symbol side : string) (quantity : Q)
  (evs : list (api_call * api_answer)) : Prop :=
  exists reduce_only response,
    In (place_market_order symbol side quantity reduce_only, Returns (Some response)) evs
    /\ (response !! "status" = Some (JStr "FILLED")
        \/ exists order_id st,
             response !! "orderId" = Some order_id
             /\ In (get_order_status symbol order_id, Returns (Some st)) evs
             /\ st !! "status" = Some (JStr "FILLED")).

Definition is_market_order (c : api_call) : bool :=
  match c with
  | place_market_order _ _ _ _ => true
  | _ => false
  end.

(** No market order was sent. *)
Definition no_market_order (evs : list (api_call * api_answer)) : Prop :=
  forallb (fun ev => negb (is_market_order (fst ev))) evs = true.

(** The sides of the entry and exit legs of a cycle in [direction]. *)
Definition entry_side (direction : Direction) : string :=
  match direction with SHORT => "SELL" | _ => "BUY" end.

Definition exit_side (direction : Direction) : string :=
  match direction with SHORT => "BUY" | _ => "SELL" end.

(** ** The risk limits, stated *)

(** A limit is breached. *)
Definition limit_breached (cfg : TradingConfig) (stats : TradingStatistics.t) : Prop :=
  MAX_DAILY_LOSS cfg < Qabs (TradingStatistics.daily_pnl stats)
  \/ (MAX_CONSECUTIVE_LOSSES cfg <= TradingStatistics.consecutive_losses stats)%Z.

(** The position is flat: below the dust threshold. *)
Definition flat (position_size : Q) : Prop := Qabs position_size < 0.0001.

(** Peak and entry values are recorded for the same symbols, and no peak
    is below its entry value. *)
Definition records_consistent (rm : RiskManager.t) : Prop :=
  forall symbol : string,
    match RiskManager.position_entry_value rm !! symbol,
          RiskManager.position_peak_value rm !! symbol with
    | Some entry, Some peak => entry <= peak
    | None, None => True
    | _, _ => False
    end.

(** The stored peak after a call on a tracked, non-flat position. *)
Definition raised_peak (old_peak current_value : Q) : Q :=
  if Qgtb current_value old_peak then current_value else old_peak.

(** ** Loops over consecutive prices, by recursion on the list *)

(** [for i in range(1, len(prices))] with a body that reads [prices[i-1]]
    and [prices[i]] visits the consecutive pairs of the list in order. *)
Fixpoint fold_pairs {S : Type} (f : Q -> Q -> S -> result S) (prices : list Q)
  (acc : S) : result S :=
  match prices with
  | p_prev :: ((p :: _) as rest) =>
      let? acc' := f p_prev p acc in fold_pairs f rest acc'
  | _ => Ok acc
  end.

(** What one step of the loop of [calculate_rsi] appends to [gains] and
    to [losses]. *)
Definition rsi_step (p_prev p : Q) : Q * Q :=
  let change := p - p_prev in
  if Qgtb change 0 then (change, 0) else (0, - change).

Fixpoint changes_of (prices : list Q) : list (Q * Q) :=
  match prices with
  | p_prev :: ((p :: _) as rest) => rsi_step p_prev p :: changes_of rest
  | _ => []
  end.

(** The body of the loop of [calculate_rsi], on the pair of lists. *)
Definition rsi_body (p_prev p : Q) (gl : list Q * list Q) : result (list Q * list Q) :=
  let change := p - p_prev in
  if Qgtb change 0
  then Ok (fst gl ++ [change], snd gl ++ [0])
  else Ok (fst gl ++ [0], snd gl ++ [- change]).

(** The body of the loop of [calculate_volatility], on the list [returns]. *)
Definition returns_body (p_prev p : Q) (returns : list Q) : result (list Q) :=
  let? ret := py_div (p - p_prev) p_prev in
  Ok (returns ++ [ret]).

(** ** Sample inputs *)

(** A sample with the given price. *)
Definition volatility_sample (price : Q) : Sample :=
  {| sample_time := 0; sample_price := price; sample_volume := 1 |}.

(** Fifteen prices, each one above the previous. *)
Definition fifteen_rising : list Sample :=
  map (fun k => {| sample_time := inject_Z (Z.of_nat k);
                   sample_price := inject_Z (100 + Z.of_nat k);
                   sample_volume := 1 |})
      (seq 1 15).

(** ** The cooldown, stated *)

(** The direction a call returned, if it returned. *)
Definition decided_direction (r : result (Direction * Reason)) : option Direction :=
  match r with
  | Ok (d, _) => Some d
  | _ => None
  end.

Definition decided_directions (log : list (Q * result (Direction * Reason)))
  : list (Q * option Direction) :=
  map (fun entry => (fst entry, decided_direction (snd entry))) log.

(** "No non-NEUTRAL direction within the cooldown window of a prior
    non-NEUTRAL decision", on the log of a run. *)
Definition cooldown_respected (cooldown : Q)
  (log : list (Q * result (Direction * Reason))) : Prop :=
  forall (i j : nat) (t1 t2 : Q) (d1 d2 : Direction) (r1 r2 : Reason),
    (i < j)%nat ->
    nth_error log i = Some (t1, Ok (d1, r1)) ->
    nth_error log j = Some (t2, Ok (d2, r2)) ->
    d1 <> NEUTRAL ->
    t2 < t1 + cooldown ->
    d2 = NEUTRAL.

(** Twenty prices rising by 2 from 100, fed at clock reading 1000: RSI is
    100 and the signal strength is between 0.1 and 0.2. *)
Definition steady_rise : list Sample :=
  map (fun k => {| sample_time := 1000;
                   sample_price := inject_Z (100 + 2 * Z.of_nat k);
                   sample_volume := 1 |})
      (seq 0 20).

(** Ask at 1000, feed the next price one second later, ask again. *)
Definition rsi_run : list Action :=
  map Feed steady_rise
  ++ [Decide 1000;
      Feed {| sample_time := 1001; sample_price := 140; sample_volume := 1 |};
      Decide 1001].

(** Twenty prices going up 4 and down 1 in turn from 60: a bullish signal
    with RSI 80. *)
Definition zigzag_rise : list Sample :=
  map (fun k => {| sample_time := 1000;
                   sample_price :=
                     inject_Z (60 + 3 * Z.of_nat (Nat.div2 k)
                               + (if Nat.even k then 0 else 4));
                   sample_volume := 1 |})
      (seq 0 20).

Definition trend_run : list Action :=
  map Feed zigzag_rise ++ [Decide 1000; Decide 1001; Decide 1004; Decide 1005].

(** What a cycle for [quantity] with entry side [entry] and exit side
    [exit] guarantees about its outcome and the calls [evs] it made. *)
Definition cycle_sound (symbol entry exit : string) (quantity : Q) (out : outcome)
  (evs : list (api_call * api_answer)) : Prop :=
  (fst (fst out) = true ->
   limit_leg_filled symbol entry quantity evs
   /\ (limit_leg_filled symbol exit quantity evs
       \/ market_fallback_answered symbol exit quantity evs))
  /\ (snd (fst out) = true ->
      limit_leg_filled symbol entry quantity evs
      /\ limit_leg_filled symbol exit quantity evs
      /\ no_market_order evs).

(** The limit order that opens a cycle in [direction] ([NEUTRAL] is the
    traditional two-sided cycle). *)
Definition entry_order (cfg : LimitOrderConfig) (symbol : string) (direction : Direction)
  (bid ask : Q) (spread_data : SpreadData) (quantity : Q) : api_call :=
  let buy_offset := BUY_PRICE_OFFSET cfg in
  let sell_offset := SELL_PRICE_OFFSET cfg in
  match direction with
  | LONG =>
      place_limit_order symbol "BUY" quantity
        (py_round (bid * (1 + buy_offset * 0.3)) 8) (TIME_IN_FORCE cfg) false
  | SHORT =>
      place_limit_order symbol "SELL" quantity
        (py_round (ask * (1 - sell_offset * 0.3)) 8) (TIME_IN_FORCE cfg) false
  | NEUTRAL =>
      place_limit_order symbol "BUY" quantity
        (if Qgtb (get_default (bid_qty spread_data) 0) (get_default (ask_qty spread_data) 0)
         then py_round (bid * (1 + buy_offset * 0.5)) 8
         else py_round (bid * (1 + buy_offset)) 8)
        (TIME_IN_FORCE cfg) false
  end.

(** The reduce-only limit order that closes it. *)
Definition exit_order (cfg : LimitOrderConfig) (symbol : string) (direction : Direction)
  (bid ask : Q) (spread_data : SpreadData) (quantity : Q) : api_call :=
  let buy_offset := BUY_PRICE_OFFSET cfg in
  let sell_offset := SELL_PRICE_OFFSET cfg in
  match direction with
  | LONG =>
      place_limit_order symbol "SELL" quantity
        (py_round (ask * (1 + sell_offset * 2)) 8) "GTC" true
  | SHORT =>
      place_limit_order symbol "BUY" quantity
        (py_round (bid * (1 - buy_offset * 2)) 8) "GTC" true
  | NEUTRAL =>
      place_limit_order symbol "SELL" quantity
        (if Qgtb (get_default (bid_qty spread_data) 0) (get_default (ask_qty spread_data) 0)
         then py_round (ask * (1 - sell_offset)) 8
         else py_round (ask * (1 - sell_offset * 0.5)) 8)
        (TIME_IN_FORCE cfg) true
  end.

(** The wait budget of the exit leg: twice that of the entry leg in the
    directional cycles. *)
Definition exit_wait (cfg : LimitOrderConfig) (direction : Direction) : Q :=
  let max_wait_time := get_default (MAX_WAIT_TIME cfg) 5 in
  match direction with
  | NEUTRAL => max_wait_time
  | _ => max_wait_time * 2
  end.

Definition order_price (c : api_call) : Q :=
  match c with
  | place_limit_order _ _ _ price _ _ => price
  | _ => 0
  end.

(** What an unclosed entry leaves open: bought in the long and traditional
    cycles, sold in the short one. *)
Definition stray_position (direction : Direction) (quantity : Q) : Q :=
  match direction with
  | SHORT => - quantity
  | _ => quantity
  end.

(** In a cycle started from [self], the entry order was placed and seen
    FILLED, the exit limit order was placed with id [exit_order_id], and
    the wait for it ended without a fill, leaving the exchange in state
    [ex4]. *)
Definition exit_leg_timed_out (cfg : LimitOrderConfig) (symbol : string)
  (direction : Direction) (bid ask : Q) (spread_data : SpreadData)
  (self : EnhancedVolumeTrader) (exit_order_id : json) (ex4 : Exchange) : Prop :=
  exists entry_response entry_order_id ex1 ex2 exit_response ex3,
    send (entry_order cfg symbol direction bid ask spread_data (trade_quantity self))
      (api self)
    = (Returns (Some entry_response), ex1)
    /\ entry_response !! "orderId" = Some entry_order_id
    /\ wait_for_order_fill symbol entry_order_id (get_default (MAX_WAIT_TIME cfg) 5) ex1
       = (Ok true, ex2)
    /\ send (exit_order cfg symbol direction bid ask spread_data (trade_quantity self)) ex2
       = (Returns (Some exit_response), ex3)
    /\ exit_response !! "orderId" = Some exit_order_id
    /\ wait_for_order_fill symbol exit_order_id (exit_wait cfg direction) ex3
       = (Ok false, ex4).

(** The market order was answered with a non-empty object. *)
Definition accepted (a : api_answer) : Prop :=
  exists d, a = Returns (Some d) /\ d <> ∅.

(** ** Sample exchanges *)

Definition order_ack (id : Z) : option (gmap string json) :=
  Some {[ "orderId" := JNum id ]}.

Definition order_state (status : string) : option (gmap string json) :=
  Some {[ "status" := JStr status ]}.

(** The answer to an order that the exchange took and then rejected. *)
Definition order_rejected (id : Z) : option (gmap string json) :=
  Some {[ "orderId" := JNum id; "status" := JStr "REJECTED" ]}.

(** Both limit orders are accepted and seen FILLED at the first query. *)
Definition exchange_fills_both : Exchange :=
  {| clock := 1000;
     answers := fun n =>
       match n with
       | 0%nat => (50%N, Returns (order_ack 1))
       | 1%nat => (20%N, Returns (order_state "FILLED"))
       | 2%nat => (50%N, Returns (order_ack 2))
       | 3%nat => (20%N, Returns (order_state "FILLED"))
       | _ => (0%N, Returns None)
       end;
     calls := [] |}.

(** The entry order fills; the exit order is still NEW when its
    ten-second budget is over; the cancel request is answered; the market
    order gets [market_answer]. *)
Definition exchange_exit_stuck (market_answer : api_answer) : Exchange :=
  {| clock := 1000;
     answers := fun n =>
       match n with
       | 0%nat => (50%N, Returns (order_ack 1))
       | 1%nat => (20%N, Returns (order_state "FILLED"))
       | 2%nat => (50%N, Returns (order_ack 2))
       | 3%nat => (10000%N, Returns (order_state "NEW"))
       | 4%nat => (30%N, Returns (order_state "CANCELED"))
       | 5%nat => (30%N, market_answer)
       | _ => (0%N, Returns None)
       end;
     calls := [] |}.

(** A trader with the configured quantity and no recorded position. *)
Definition trader_on (ex : Exchange) : EnhancedVolumeTrader :=
  {| trade_quantity := 0.0035; positions := ∅; api := ex |}.

(** ** trend_analyzer_simple.py: support, resistance and exits *)








(** The cached moving averages, when there are any, are the averages of
    the current window. *)
Definition caches_coherent (ta : TrendAnalyzer) : Prop :=
  (forall v, _short_ma_cache ta = Some v ->
             calculate_moving_average (short_ma ta) ta = Ok (Some v))
  /\ (forall v, _long_ma_cache ta = Some v ->
                calculate_moving_average (long_ma ta) ta = Ok (Some v)).


(** Two analyzers that differ at most in their caches. *)
Definition same_window (ta ta' : TrendAnalyzer) : Prop :=
  _clear_cache ta = _clear_cache ta'.



(** ** enhanced_volume_trader.py: the reports of TradingStatistics *)



Definition get_average_fee_per_trade (self : TradingStatistics.t) : Q :=
  if (TradingStatistics.total_trades self =? 0)%Z then 0
  else TradingStatistics.total_fees self / inject_Z (TradingStatistics.total_trades self).

(** One call of [add_trade], with the date of the call. *)
Record Trade : Type := {
  trade_date : Z;
  trade_success : bool;
  trade_volume : Q;
  trade_pnl : Q;
  trade_is_maker : bool;
  trade_fee : Q
}.






(** The trades recorded on [date], and the date of the last trade of a
    list ([today] when there is none). *)
Definition trades_on (date : Z) (trades : list Trade) : list Trade :=
  List.filter (fun tr => (trade_date tr =? date)%Z) trades.


(** ** enhanced_volume_trader.py: the drawdown records *)


(** ** enhanced_volume_trader.py: the orders of a cycle *)





(** * Properties *)

(** ** Comparisons and arithmetic on floats *)

Lemma Qltb_lt (x y : Q) : Qltb x y = true <-> x < y.
Proof.
  unfold Qltb. rewrite negb_true_iff.
  split; intros H.
  - apply Qnot_le_lt. intros Hle. apply Qle_bool_iff in Hle. congruence.
  - destruct (Qle_bool y x) eqn:E; [|reflexivity].
    apply Qle_bool_iff in E. exfalso. apply (Qlt_not_le _ _ H E).
Qed.

Lemma Qltb_ge (x y : Q) : Qltb x y = false <-> y <= x.
Proof.
  unfold Qltb. rewrite negb_false_iff. apply Qle_bool_iff.
Qed.

Lemma Qgtb_gt (x y : Q) : Qgtb x y = true <-> y < x.
Proof. apply Qltb_lt. Qed.

Lemma Qgtb_le (x y : Q) : Qgtb x y = false <-> x <= y.
Proof. apply Qltb_ge. Qed.

Lemma py_div_Ok (x y : Q) : ~ y == 0 -> py_div x y = Ok (x / y).
Proof.
  intros H. unfold py_div. destruct (Qeq_bool y 0) eqn:E; [|reflexivity].
  apply Qeq_bool_iff in E. contradiction.
Qed.


Lemma py_min_le_r (x y : Q) : py_min x y <= y.
Proof.
  unfold py_min. destruct (Qltb y x) eqn:E.
  - apply Qle_refl.
  - now apply Qltb_ge in E.
Qed.

Lemma py_min_Qmin (x y : Q) : py_min x y == Qmin x y.
Proof.
  unfold py_min. destruct (Qltb y x) eqn:E.
  - apply Qltb_lt in E. symmetry. apply Q.min_r. now apply Qlt_le_weak.
  - apply Qltb_ge in E. symmetry. now apply Q.min_l.
Qed.

(** ** Square roots kept by their radicand *)

Lemma Q2R_0 : Q2R 0 = 0%R.
Proof. unfold Q2R. cbn. lra. Qed.

(** [root_gtb] is the comparison of the source: the real square root of
    the radicand against the constant. *)
Lemma root_gtb_spec (r : root) (c : Q) :
  0 <= radicand r ->
  root_gtb r c = true <-> (Q2R c < root_value r)%R.
Proof.
  intros Hr. unfold root_gtb, root_value.
  assert (HrR : (0 <= Q2R (radicand r))%R) by (rewrite <- Q2R_0; now apply Qle_Rle).
  pose proof (sqrt_pos (Q2R (radicand r))) as Hsqrt.
  rewrite orb_true_iff, !Qltb_lt. split.
  - intros [Hneg | Hsq].
    + apply Qlt_Rlt in Hneg. rewrite Q2R_0 in Hneg. lra.
    + destruct (Qlt_le_dec c 0) as [Hneg | Hpos].
      * apply Qlt_Rlt in Hneg. rewrite Q2R_0 in Hneg. lra.
      * apply Qle_Rle in Hpos. rewrite Q2R_0 in Hpos.
        apply Qlt_Rlt in Hsq. rewrite Q2R_mult in Hsq.
        rewrite <- (sqrt_square (Q2R c)) by exact Hpos.
        apply sqrt_lt_1; [nra | exact HrR | exact Hsq].
  - intros H.
    destruct (Qlt_le_dec c 0) as [Hneg | Hpos]; [now left | right].
    apply Qle_Rle in Hpos. rewrite Q2R_0 in Hpos.
    apply Rlt_Qlt. rewrite Q2R_mult.
    rewrite <- (sqrt_square (Q2R c)) in H by exact Hpos.
    now apply sqrt_lt_0_alt in H.
Qed.

(** Roots of non-negative radicands are the same real number exactly when
    the radicands are equal. *)
Lemma root_eq_value (r1 r2 : root) :
  0 <= radicand r1 -> 0 <= radicand r2 ->
  root_eq r1 r2 <-> root_value r1 = root_value r2.
Proof.
  intros H1 H2. unfold root_eq, root_value.
  assert (H1R : (0 <= Q2R (radicand r1))%R) by (rewrite <- Q2R_0; now apply Qle_Rle).
  assert (H2R : (0 <= Q2R (radicand r2))%R) by (rewrite <- Q2R_0; now apply Qle_Rle).
  split.
  - intros H. f_equal. now apply Qeq_eqR.
  - intros H. apply eqR_Qeq. now apply sqrt_inj.
Qed.

(** ** [calculate_position_size] *)

(** C10.  With the default risk ratio 0.02 and a non-negative balance,
    [calculate_position_size] returns exactly
    [min(balance * 0.02 / 0.02, balance * 0.1)], and the size it suggests
    never exceeds 10% of the balance. *)
Theorem C10_position_size_is_capped_min (balance : Q) :
  0 <= balance ->
  exists size,
    calculate_position_size balance 0.02 = Ok size
    /\ size == Qmin (balance * 0.02 / 0.02) (balance * 0.1)
    /\ size <= balance * 0.1.
Proof.
  intros _. unfold calculate_position_size.
  rewrite py_div_Ok by (intros H; discriminate H).
  cbn [rbind]. eexists. split; [reflexivity|]. split.
  - apply py_min_Qmin.
  - apply py_min_le_r.
Qed.

Lemma C10_position_size_witness :
  0 <= 1000
  /\ exists size,
       calculate_position_size 1000 0.02 = Ok size
       /\ size == Qmin (1000 * 0.02 / 0.02) (1000 * 0.1)
       /\ size <= 1000 * 0.1.
Proof.
  split; [discriminate|].
  apply (C10_position_size_is_capped_min 1000). discriminate.
Defined.

(** ** [RiskManager.check_risk_limits] *)

Lemma check_risk_limits_breached cfg today stats rm :
  limit_breached cfg stats ->
  fst (RiskManager.check_risk_limits cfg today stats rm) = false
  /\ RiskManager.emergency_stop (snd (RiskManager.check_risk_limits cfg today stats rm)) = true.
Proof.
  intros [H | H]; unfold RiskManager.check_risk_limits.
  - apply Qgtb_gt in H. rewrite H. split; reflexivity.
  - destruct (Qgtb _ _); [split; reflexivity|].
    apply Z.leb_le in H. rewrite H. split; reflexivity.
Qed.

Lemma check_risk_limits_within cfg today stats rm :
  ~ limit_breached cfg stats ->
  fst (RiskManager.check_risk_limits cfg today stats rm) = true
  /\ RiskManager.emergency_stop (snd (RiskManager.check_risk_limits cfg today stats rm))
     = RiskManager.emergency_stop rm.
Proof.
  intros H. unfold RiskManager.check_risk_limits, limit_breached in *.
  destruct (Qgtb _ _) eqn:E1.
  - exfalso. apply H. left. now apply Qgtb_gt.
  - destruct (_ <=? _)%Z eqn:E2.
    + exfalso. apply H. right. now apply Z.leb_le.
    + split; reflexivity.
Qed.

(** C7.  [check_risk_limits] returns false and sets [emergency_stop]
    exactly when [|daily_pnl| > MAX_DAILY_LOSS] or
    [consecutive_losses >= MAX_CONSECUTIVE_LOSSES]; otherwise it returns
    true and leaves [emergency_stop] as it was.  With [daily_pnl = -105]
    and [MAX_DAILY_LOSS = 100] it returns false and sets the flag. *)
Theorem C7_check_risk_limits_exact :
  (forall cfg today stats rm,
     let r := RiskManager.check_risk_limits cfg today stats rm in
     (fst r = false <-> limit_breached cfg stats)
     /\ (limit_breached cfg stats -> RiskManager.emergency_stop (snd r) = true)
     /\ (~ limit_breached cfg stats ->
         fst r = true
         /\ RiskManager.emergency_stop (snd r) = RiskManager.emergency_stop rm))
  /\ (forall today stats rm,
        TradingStatistics.daily_pnl stats == -105 ->
        let r := RiskManager.check_risk_limits TRADING_CONFIG today stats rm in
        fst r = false /\ RiskManager.emergency_stop (snd r) = true).
Proof.
  split.
  - intros cfg today stats rm r. subst r. repeat split.
    + intros Hf. unfold limit_breached.
      unfold RiskManager.check_risk_limits in Hf.
      destruct (Qgtb _ _) eqn:E1; [left; now apply Qgtb_gt|].
      destruct (_ <=? _)%Z eqn:E2; [right; now apply Z.leb_le|].
      discriminate Hf.
    + intros Hb. now apply check_risk_limits_breached.
    + intros Hb. now apply check_risk_limits_breached.
    + now apply check_risk_limits_within.
    + now apply check_risk_limits_within.
  - intros today stats rm Hpnl r. subst r.
    apply check_risk_limits_breached. left.
    rewrite Hpnl. reflexivity.
Qed.

Lemma C7_check_risk_limits_witness :
  let stats :=
    TradingStatistics.add_trade 1 false 0.0035 (-105) false 0 (TradingStatistics.reset_stats 1) in
  let rm := RiskManager.init TRADING_CONFIG 1 in
  let r := RiskManager.check_risk_limits TRADING_CONFIG 1 stats rm in
  TradingStatistics.daily_pnl stats == -105
  /\ limit_breached TRADING_CONFIG stats
  /\ fst r = false
  /\ RiskManager.emergency_stop (snd r) = true.
Proof.
  intros stats rm r.
  assert (Hpnl : TradingStatistics.daily_pnl stats == -105) by reflexivity.
  destruct C7_check_risk_limits_exact as [Hgen Hscn].
  destruct (Hscn 1%Z stats rm Hpnl) as [Hf Hs].
  destruct (Hgen TRADING_CONFIG 1%Z stats rm) as [Hiff _].
  split; [exact Hpnl|]. split; [|split; assumption].
  apply Hiff. exact Hf.
Defined.

(** ** The price window: [add_price_data] *)

Lemma last_n_all {A : Type} (n : nat) (l : list A) :
  (length l <= n)%nat -> last_n n l = l.
Proof.
  intros H. unfold last_n. replace (length l - n)%nat with 0%nat by lia. reflexivity.
Qed.

Lemma last_n_length {A : Type} (n : nat) (l : list A) :
  length (last_n n l) = Nat.min n (length l).
Proof. unfold last_n. rewrite length_skipn. lia. Qed.

Lemma last_n_snoc {A : Type} (n : nat) (l : list A) (x : A) :
  last_n n (last_n n l ++ [x]) = last_n n (l ++ [x]).
Proof.
  destruct (le_lt_dec (length l) n) as [Hle | Hlt].
  - now rewrite (last_n_all n l Hle).
  - unfold last_n at 1 3.
    rewrite !length_app, last_n_length. cbn [length].
    replace (Nat.min n (length l) + 1 - n)%nat with 1%nat by lia.
    rewrite !skipn_app. unfold last_n. rewrite skipn_skipn, length_skipn.
    replace (1 + (length l - n))%nat with (length l + 1 - n)%nat by lia.
    f_equal. f_equal. lia.
Qed.

(** One append keeps the last [maxlen] elements. *)
Lemma deque_append_last_n {A : Type} (maxlen : nat) (d : list A) (x : A) :
  (length d <= maxlen)%nat ->
  deque_append maxlen d x = last_n maxlen (d ++ [x]).
Proof.
  intros H. unfold deque_append, last_n.
  rewrite length_app. cbn [length].
  destruct (Nat.ltb_spec maxlen (length d + 1)) as [Hlt | Hge].
  - replace (length d + 1 - maxlen)%nat with 1%nat by lia.
    now destruct (d ++ [x]).
  - replace (length d + 1 - maxlen)%nat with 0%nat by lia. reflexivity.
Qed.

(** On a full window the oldest entry goes and the others keep their order. *)
Lemma deque_append_full {A : Type} (maxlen : nat) (d : list A) (x : A) :
  length d = maxlen -> (0 < maxlen)%nat ->
  deque_append maxlen d x = tl d ++ [x].
Proof.
  intros H Hpos. unfold deque_append. rewrite length_app. cbn [length].
  destruct (Nat.ltb_spec maxlen (length d + 1)) as [Hlt | Hge]; [|lia].
  destruct d; [cbn in H; lia | reflexivity].
Qed.

Lemma add_price_data_window_size t p v ta :
  window_size (add_price_data t p v ta) = window_size ta.
Proof. reflexivity. Qed.

(** The three windows after feeding [samples] to an analyzer whose windows
    hold the last elements of [pre_p], [pre_v] and [pre_t]. *)
Lemma add_all_windows (samples : list Sample) :
  forall (ta : TrendAnalyzer) (pre_p pre_v pre_t : list Q),
    price_history ta = last_n (window_size ta) pre_p ->
    volume_history ta = last_n (window_size ta) pre_v ->
    timestamp_history ta = last_n (window_size ta) pre_t ->
    let ta' := add_all samples ta in
    window_size ta' = window_size ta
    /\ price_history ta' = last_n (window_size ta) (pre_p ++ map sample_price samples)
    /\ volume_history ta' = last_n (window_size ta) (pre_v ++ map sample_volume samples)
    /\ timestamp_history ta' = last_n (window_size ta) (pre_t ++ map sample_time samples).
Proof.
  induction samples as [|s samples IH]; intros ta pre_p pre_v pre_t Hp Hv Ht.
  - cbn. rewrite !app_nil_r. auto.
  - cbn [add_all fold_left map].
    specialize (IH (add_price_data (sample_time s) (sample_price s) (sample_volume s) ta)
                  (pre_p ++ [sample_price s]) (pre_v ++ [sample_volume s])
                  (pre_t ++ [sample_time s])).
    rewrite add_price_data_window_size in IH.
    rewrite <- !app_assoc in IH. cbn [app] in IH.
    apply IH; cbn [add_price_data _clear_cache price_history volume_history
                     timestamp_history window_size].
    + rewrite deque_append_last_n, Hp by (rewrite Hp, last_n_length; lia).
      apply last_n_snoc.
    + rewrite deque_append_last_n, Hv by (rewrite Hv, last_n_length; lia).
      apply last_n_snoc.
    + rewrite deque_append_last_n, Ht by (rewrite Ht, last_n_length; lia).
      apply last_n_snoc.
Qed.

(** C5.  After any sequence of [add_price_data] calls on a fresh analyzer,
    the price window holds at most [window_size] entries and they are
    exactly the most recent prices, in insertion order (and so do the
    volume and timestamp windows); a call on a full window evicts the
    oldest entry and keeps the order of the others.  The default capacity
    is 30. *)
Theorem C5_price_window_bounded_fifo :
  (forall (capacity : nat) (short long : Z) (samples : list Sample),
     let ta := add_all samples (TrendAnalyzer_init capacity short long) in
     (length (price_history ta) <= capacity)%nat
     /\ price_history ta = last_n capacity (map sample_price samples)
     /\ volume_history ta = last_n capacity (map sample_volume samples)
     /\ timestamp_history ta = last_n capacity (map sample_time samples))
  /\ (forall (capacity : nat) (short long : Z) (samples : list Sample) (s : Sample),
        let ta := add_all samples (TrendAnalyzer_init capacity short long) in
        length (price_history ta) = capacity -> (0 < capacity)%nat ->
        price_history (add_price_data (sample_time s) (sample_price s) (sample_volume s) ta)
        = tl (price_history ta) ++ [sample_price s])
  /\ (forall (samples : list Sample),
        (length (price_history (add_all samples (TrendAnalyzer_init 30 5 20))) <= 30)%nat).
Proof.
  assert (Hrun : forall capacity short long samples,
            let ta := add_all samples (TrendAnalyzer_init capacity short long) in
            window_size ta = capacity
            /\ price_history ta = last_n capacity (map sample_price samples)
            /\ volume_history ta = last_n capacity (map sample_volume samples)
            /\ timestamp_history ta = last_n capacity (map sample_time samples)).
  { intros capacity short long samples.
    apply (add_all_windows samples (TrendAnalyzer_init capacity short long) [] [] []);
      reflexivity. }
  split; [|split].
  - intros capacity short long samples ta.
    destruct (Hrun capacity short long samples) as (_ & Hp & Hv & Ht).
    fold ta in Hp, Hv, Ht. repeat split; try assumption.
    rewrite Hp, last_n_length. lia.
  - intros capacity short long samples s ta Hfull Hpos.
    destruct (Hrun capacity short long samples) as (Hw & _). fold ta in Hw.
    cbn [add_price_data _clear_cache price_history]. rewrite Hw.
    now apply deque_append_full.
  - intros samples.
    destruct (Hrun 30%nat 5%Z 20%Z samples) as (_ & Hp & _).
    cbn zeta in Hp. rewrite Hp, last_n_length. lia.
Qed.

Lemma C5_price_window_witness :
  let mk := fun t p => {| sample_time := t; sample_price := p; sample_volume := 1 |} in
  let ta := add_all [mk 1 100; mk 2 101; mk 3 102] (TrendAnalyzer_init 3 5 20) in
  length (price_history ta) = 3%nat
  /\ (0 < 3)%nat
  /\ price_history (add_price_data 4 103 1 ta) = [101; 102; 103].
Proof.
  intros mk ta.
  destruct C5_price_window_bounded_fifo as (_ & Hfull & _).
  split; [reflexivity|]. split; [lia|].
  exact (Hfull 3%nat 5%Z 20%Z [mk 1 100; mk 2 101; mk 3 102] (mk 4 103)
           eq_refl (Nat.lt_0_succ 2)).
Defined.

(** ** [RiskManager.update_position_value] *)

Lemma update_flat symbol price size rm :
  flat size ->
  RiskManager.update_position_value symbol price size rm
  = (Ok true,
     RiskManager.set_position_records
       (delete symbol (RiskManager.position_peak_value rm))
       (delete symbol (RiskManager.position_entry_value rm)) rm).
Proof.
  intros H. unfold RiskManager.update_position_value.
  apply Qltb_lt in H. now rewrite H.
Qed.

Lemma update_first symbol price size rm :
  ~ flat size ->
  RiskManager.position_entry_value rm !! symbol = None ->
  RiskManager.update_position_value symbol price size rm
  = (Ok true,
     RiskManager.set_position_records
       (<[symbol := Qabs (size * price)]> (RiskManager.position_peak_value rm))
       (<[symbol := Qabs (size * price)]> (RiskManager.position_entry_value rm)) rm).
Proof.
  intros H He. unfold RiskManager.update_position_value.
  destruct (Qltb (Qabs size) 0.0001) eqn:E; [apply Qltb_lt in E; contradiction|].
  now rewrite He.
Qed.

Lemma raised_peak_ge (old_peak current_value : Q) :
  old_peak <= raised_peak old_peak current_value
  /\ current_value <= raised_peak old_peak current_value.
Proof.
  unfold raised_peak. destruct (Qgtb current_value old_peak) eqn:E.
  - apply Qgtb_gt in E. split; [now apply Qlt_le_weak | apply Qle_refl].
  - apply Qgtb_le in E. split; [apply Qle_refl | assumption].
Qed.

Lemma update_tracked symbol price size rm entry old_peak :
  ~ flat size ->
  RiskManager.position_entry_value rm !! symbol = Some entry ->
  RiskManager.position_peak_value rm !! symbol = Some old_peak ->
  let current_value := Qabs (size * price) in
  let peak := raised_peak old_peak current_value in
  let r := RiskManager.update_position_value symbol price size rm in
  RiskManager.position_peak_value (snd r)
  = (if Qgtb current_value old_peak
     then <[symbol := current_value]> (RiskManager.position_peak_value rm)
     else RiskManager.position_peak_value rm)
  /\ RiskManager.position_peak_value (snd r) !! symbol = Some peak
  /\ RiskManager.position_entry_value (snd r) = RiskManager.position_entry_value rm
  /\ fst r
     = match py_div (peak - current_value) peak with
       | Ok drawdown =>
           if Qgtb drawdown (RiskManager.max_drawdown_percent rm)
              && RiskManager.force_close_enabled rm
           then Ok false else Ok true
       | Raise e => Raise e
       | OutOfFuel => OutOfFuel
       end.
Proof.
  intros Hnf He Hp current_value peak r. subst r peak.
  unfold RiskManager.update_position_value, raised_peak.
  destruct (Qltb (Qabs size) 0.0001) eqn:E; [apply Qltb_lt in E; contradiction|].
  rewrite He, Hp. fold current_value.
  destruct (Qgtb current_value old_peak) eqn:Egt.
  - cbn [RiskManager.set_position_records RiskManager.position_peak_value].
    rewrite lookup_insert_eq.
    destruct (py_div (current_value - current_value) current_value) as [dd| |];
      cbn; try rewrite lookup_insert_eq; try (repeat split; reflexivity).
    destruct (Qgtb dd (RiskManager.max_drawdown_percent rm)),
      (RiskManager.force_close_enabled rm); cbn;
      rewrite ?lookup_insert_eq; repeat split; reflexivity.
  - rewrite Hp.
    destruct (py_div (old_peak - current_value) old_peak) as [dd| |];
      cbn; try (repeat split; (reflexivity || assumption)).
    destruct (Qgtb dd (RiskManager.max_drawdown_percent rm)),
      (RiskManager.force_close_enabled rm); cbn;
      repeat split; (reflexivity || assumption).
Qed.

Lemma not_flat_iff (size : Q) : ~ flat size <-> 0.0001 <= Qabs size.
Proof.
  unfold flat. split; intros H.
  - now apply Qnot_lt_le.
  - now apply Qle_not_lt.
Qed.

(** C3.  On a non-flat position that is already tracked,
    [update_position_value] never lowers the stored peak (the new peak is
    the larger of the old peak and the current value), and it returns
    false exactly when the drawdown it computes, [(peak - current) / peak]
    on the new peak, strictly exceeds [max_drawdown_percent] and forced
    close is enabled.  With peak 1000, current value 940 and a limit of
    0.05 it returns false. *)
Theorem C3_update_position_value_drawdown :
  (forall symbol price size rm entry old_peak,
     0.0001 <= Qabs size ->
     RiskManager.position_entry_value rm !! symbol = Some entry ->
     RiskManager.position_peak_value rm !! symbol = Some old_peak ->
     let current_value := Qabs (size * price) in
     let r := RiskManager.update_position_value symbol price size rm in
     exists peak,
       RiskManager.position_peak_value (snd r) !! symbol = Some peak
       /\ old_peak <= peak
       /\ current_value <= peak
       /\ (peak = old_peak \/ peak = current_value)
       /\ (fst r = Ok false
           <-> (~ peak == 0
                /\ RiskManager.max_drawdown_percent rm < (peak - current_value) / peak
                /\ RiskManager.force_close_enabled rm = true)))
  /\ (forall symbol rm entry,
        RiskManager.position_entry_value rm !! symbol = Some entry ->
        RiskManager.position_peak_value rm !! symbol = Some 1000 ->
        RiskManager.max_drawdown_percent rm = 0.05 ->
        RiskManager.force_close_enabled rm = true ->
        fst (RiskManager.update_position_value symbol 940 1 rm) = Ok false).
Proof.
  split.
  - intros symbol price size rm entry old_peak Hnf He Hp current_value r.
    apply not_flat_iff in Hnf.
    destruct (update_tracked symbol price size rm entry old_peak Hnf He Hp)
      as (_ & Hpeak & _ & Hres).
    fold current_value in Hpeak, Hres. fold r in Hpeak, Hres.
    exists (raised_peak old_peak current_value).
    destruct (raised_peak_ge old_peak current_value) as [Hge1 Hge2].
    split; [exact Hpeak|]. split; [exact Hge1|]. split; [exact Hge2|]. split.
    { unfold raised_peak. destruct (Qgtb current_value old_peak); auto. }
    rewrite Hres. unfold py_div.
    destruct (Qeq_bool (raised_peak old_peak current_value) 0) eqn:Ez.
    + apply Qeq_bool_iff in Ez. split; [discriminate|]. intros (Hnz & _). contradiction.
    + apply Qeq_bool_neq in Ez.
      destruct (Qgtb _ (RiskManager.max_drawdown_percent rm)) eqn:Edd;
        destruct (RiskManager.force_close_enabled rm) eqn:Efc; cbn [andb].
      * apply Qgtb_gt in Edd. split; auto.
      * split; [discriminate|]. intros (_ & _ & H). discriminate H.
      * apply Qgtb_le in Edd. split; [discriminate|]. intros (_ & H & _).
        exfalso. apply (Qlt_not_le _ _ H Edd).
      * split; [discriminate|]. intros (_ & _ & H). discriminate H.
  - intros symbol rm entry He Hp Hmax Hfc.
    assert (Hnf : ~ flat 1) by (apply not_flat_iff; discriminate).
    destruct (update_tracked symbol 940 1 rm entry 1000 Hnf He Hp) as (_ & _ & _ & Hres).
    rewrite Hres, Hmax, Hfc. reflexivity.
Qed.

Lemma C3_update_position_value_witness :
  let cfg :=
    {| MAX_DAILY_LOSS := 100; MAX_CONSECUTIVE_LOSSES := 700;
       MAX_POSITION_DRAWDOWN := Some 0.05; DRAWDOWN_WARNING_THRESHOLD := Some 0.04;
       FORCE_CLOSE_ON_DRAWDOWN := Some true |} in
  let rm :=
    snd (RiskManager.update_position_value "BTCUSDT" 1000 1 (RiskManager.init cfg 1)) in
  let r := RiskManager.update_position_value "BTCUSDT" 940 1 rm in
  0.0001 <= Qabs 1
  /\ RiskManager.position_entry_value rm !! "BTCUSDT" = Some 1000
  /\ RiskManager.position_peak_value rm !! "BTCUSDT" = Some 1000
  /\ fst r = Ok false
  /\ exists peak,
       RiskManager.position_peak_value (snd r) !! "BTCUSDT" = Some peak
       /\ 1000 <= peak
       /\ (fst r = Ok false
           <-> (~ peak == 0
                /\ RiskManager.max_drawdown_percent rm < (peak - Qabs (1 * 940)) / peak
                /\ RiskManager.force_close_enabled rm = true)).
Proof.
  intros cfg rm r.
  assert (Hnf : 0.0001 <= Qabs 1) by discriminate.
  assert (He : RiskManager.position_entry_value rm !! "BTCUSDT" = Some 1000)
    by (vm_compute; reflexivity).
  assert (Hp : RiskManager.position_peak_value rm !! "BTCUSDT" = Some 1000)
    by (vm_compute; reflexivity).
  destruct C3_update_position_value_drawdown as [Hgen Hscn].
  split; [exact Hnf|]. split; [exact He|]. split; [exact Hp|]. split.
  - apply (Hscn "BTCUSDT" rm 1000 He Hp); reflexivity.
  - destruct (Hgen "BTCUSDT" 940 1 rm 1000 1000 Hnf He Hp)
      as (peak & H1 & H2 & _ & _ & H3).
    exists peak. split; [exact H1|]. split; [exact H2|]. exact H3.
Defined.

(** ** Peak against entry value *)

Lemma init_records_consistent cfg today :
  records_consistent (RiskManager.init cfg today).
Proof. intros symbol. cbn. now rewrite lookup_empty. Qed.

Lemma update_keeps_records_consistent symbol price size rm :
  records_consistent rm ->
  records_consistent (snd (RiskManager.update_position_value symbol price size rm)).
Proof.
  intros Hc s.
  destruct (Qlt_le_dec (Qabs size) 0.0001) as [Hflat | Hnf].
  - rewrite update_flat by exact Hflat.
    cbn [snd RiskManager.set_position_records RiskManager.position_entry_value
           RiskManager.position_peak_value].
    destruct (decide (symbol = s)) as [-> | Hne].
    + now rewrite !lookup_delete_eq.
    + rewrite !lookup_delete_ne by exact Hne. apply Hc.
  - apply not_flat_iff in Hnf.
    destruct (RiskManager.position_entry_value rm !! symbol) as [entry|] eqn:He.
    + destruct (RiskManager.position_peak_value rm !! symbol) as [old_peak|] eqn:Hp.
      * destruct (update_tracked symbol price size rm entry old_peak Hnf He Hp)
          as (Hmap & Hpeak & Hentry & _).
        rewrite Hentry.
        destruct (decide (symbol = s)) as [<- | Hne].
        -- rewrite Hpeak, He. specialize (Hc symbol). rewrite He, Hp in Hc.
           eapply Qle_trans; [exact Hc|]. apply raised_peak_ge.
        -- rewrite Hmap. destruct (Qgtb _ old_peak).
           ++ rewrite lookup_insert_ne by exact Hne. apply Hc.
           ++ apply Hc.
      * specialize (Hc symbol). rewrite He, Hp in Hc. contradiction.
    + rewrite update_first by assumption.
      cbn [snd RiskManager.set_position_records RiskManager.position_entry_value
             RiskManager.position_peak_value].
      destruct (decide (symbol = s)) as [-> | Hne].
      * rewrite !lookup_insert_eq. apply Qle_refl.
      * rewrite !lookup_insert_ne by exact Hne. apply Hc.
Qed.

Lemma update_all_records_consistent updates :
  forall rm, records_consistent rm -> records_consistent (update_all updates rm).
Proof.
  induction updates as [|u updates IH]; intros rm Hc; [exact Hc|].
  cbn [update_all fold_left]. apply IH.
  now apply update_keeps_records_consistent.
Qed.

(** C2 (as stated, refuted).  No sequence of [update_position_value] calls
    on a fresh risk manager reaches a state in which a symbol's recorded
    peak value is strictly below its recorded entry value. *)
Lemma C2_no_state_with_peak_below_entry :
  ~ exists cfg today updates symbol peak entry,
      let rm := update_all updates (RiskManager.init cfg today) in
      RiskManager.position_peak_value rm !! symbol = Some peak
      /\ RiskManager.position_entry_value rm !! symbol = Some entry
      /\ peak < entry.
Proof.
  intros (cfg & today & updates & symbol & peak & entry & Hp & He & Hlt).
  pose proof (update_all_records_consistent updates _
                (init_records_consistent cfg today) symbol) as Hc.
  rewrite Hp, He in Hc. apply (Qlt_not_le _ _ Hlt Hc).
Qed.

(** C2 (amended).  In every state reached from a fresh risk manager by a
    sequence of [update_position_value] calls, a symbol's recorded peak
    value is at least its recorded entry value; and a further call for a
    tracked symbol with a non-flat position never lowers the peak. *)
Theorem C2_peak_at_least_entry_and_monotone :
  forall cfg today updates,
    let rm := update_all updates (RiskManager.init cfg today) in
    (forall symbol peak entry,
       RiskManager.position_peak_value rm !! symbol = Some peak ->
       RiskManager.position_entry_value rm !! symbol = Some entry ->
       entry <= peak)
    /\ (forall symbol price size old_peak,
          0.0001 <= Qabs size ->
          RiskManager.position_peak_value rm !! symbol = Some old_peak ->
          exists peak,
            RiskManager.position_peak_value
              (snd (RiskManager.update_position_value symbol price size rm)) !! symbol
            = Some peak
            /\ old_peak <= peak).
Proof.
  intros cfg today updates rm.
  assert (Hc : records_consistent rm)
    by (apply update_all_records_consistent, init_records_consistent).
  split.
  - intros symbol peak entry Hp He. specialize (Hc symbol). now rewrite Hp, He in Hc.
  - intros symbol price size old_peak Hnf Hp.
    apply not_flat_iff in Hnf.
    pose proof (Hc symbol) as Hs. rewrite Hp in Hs.
    destruct (RiskManager.position_entry_value rm !! symbol) as [entry|] eqn:He;
      [|contradiction].
    destruct (update_tracked symbol price size rm entry old_peak Hnf He Hp)
      as (_ & Hpeak & _).
    eexists. split; [exact Hpeak|]. apply raised_peak_ge.
Qed.

Lemma C2_peak_at_least_entry_witness :
  let upd := fun p => {| upd_symbol := "BTCUSDT"; upd_price := p; upd_size := 1 |} in
  let rm := update_all [upd 100; upd 110; upd 90] (RiskManager.init TRADING_CONFIG 1) in
  RiskManager.position_peak_value rm !! "BTCUSDT" = Some 110
  /\ RiskManager.position_entry_value rm !! "BTCUSDT" = Some 100
  /\ 100 <= 110
  /\ 0.0001 <= Qabs 1
  /\ exists peak,
       RiskManager.position_peak_value
         (snd (RiskManager.update_position_value "BTCUSDT" 95 1 rm)) !! "BTCUSDT"
       = Some peak
       /\ 110 <= peak.
Proof.
  intros upd rm.
  assert (Hp : RiskManager.position_peak_value rm !! "BTCUSDT" = Some 110)
    by (vm_compute; reflexivity).
  assert (He : RiskManager.position_entry_value rm !! "BTCUSDT" = Some 100)
    by (vm_compute; reflexivity).
  assert (Hnf : 0.0001 <= Qabs 1) by discriminate.
  destruct (C2_peak_at_least_entry_and_monotone TRADING_CONFIG 1%Z
              [upd 100; upd 110; upd 90]) as [Hinv Hmono].
  split; [exact Hp|]. split; [exact He|]. split.
  - exact (Hinv "BTCUSDT" 110 100 Hp He).
  - split; [exact Hnf|]. exact (Hmono "BTCUSDT" 95 1 110 Hnf Hp).
Defined.

(** ** Loops over consecutive prices *)

Lemma py_index_nth {A : Type} (l : list A) (i : nat) (x : A) :
  nth_error l i = Some x -> py_index l (Z.of_nat i) = Ok x.
Proof.
  intros H. unfold py_index.
  destruct (Z.ltb_spec (Z.of_nat i) 0) as [Hneg | _]; [lia|].
  destruct (Z.ltb_spec (Z.of_nat i) 0) as [Hneg | _]; [lia|].
  now rewrite Nat2Z.id, H.
Qed.

Lemma for_range_pairs_from {S : Type} (f : Q -> Q -> S -> result S) (rest : list Q) :
  forall (pre : list Q) (p_prev : Q) (acc : S),
    let prices := pre ++ p_prev :: rest in
    for_range (length pre + 1) (length rest)
      (fun i acc =>
         let? p := py_index prices (Z.of_nat i) in
         let? q := py_index prices (Z.of_nat i - 1) in
         f q p acc)
      acc
    = fold_pairs f (p_prev :: rest) acc.
Proof.
  induction rest as [|p rest IH]; intros pre p_prev acc prices; [reflexivity|].
  cbn [length for_range fold_pairs].
  assert (Hp : py_index prices (Z.of_nat (length pre + 1)) = Ok p).
  { apply py_index_nth. subst prices.
    rewrite nth_error_app2 by lia.
    replace (length pre + 1 - length pre)%nat with 1%nat by lia. reflexivity. }
  assert (Hq : py_index prices (Z.of_nat (length pre + 1) - 1) = Ok p_prev).
  { replace (Z.of_nat (length pre + 1) - 1)%Z with (Z.of_nat (length pre)) by lia.
    apply py_index_nth. subst prices.
    rewrite nth_error_app2 by lia. now rewrite Nat.sub_diag. }
  rewrite Hp, Hq. cbn [rbind].
  destruct (f p_prev p acc) as [acc'| |]; cbn [rbind]; try reflexivity.
  specialize (IH (pre ++ [p_prev]) p acc').
  rewrite length_app in IH. cbn [length] in IH.
  replace (length pre + 1 + 1)%nat with (Datatypes.S (length pre + 1)) in IH by lia.
  subst prices. rewrite <- app_assoc in IH. cbn [app] in IH. exact IH.
Qed.

(** The index loop over a list is the recursion over its consecutive pairs. *)
Lemma for_range_pairs {S : Type} (f : Q -> Q -> S -> result S) (prices : list Q)
  (acc : S) :
  for_range 1 (length prices - 1)
    (fun i acc =>
       let? p := py_index prices (Z.of_nat i) in
       let? q := py_index prices (Z.of_nat i - 1) in
       f q p acc)
    acc
  = fold_pairs f prices acc.
Proof.
  destruct prices as [|p_prev rest]; [reflexivity|].
  cbn [length]. rewrite Nat.sub_succ, Nat.sub_0_r.
  apply (for_range_pairs_from f rest [] p_prev acc).
Qed.

Lemma fold_pairs_cons2 {S : Type} (f : Q -> Q -> S -> result S) (a b : Q)
  (rest : list Q) (acc : S) :
  fold_pairs f (a :: b :: rest) acc
  = (let? acc' := f a b acc in fold_pairs f (b :: rest) acc').
Proof. reflexivity. Qed.

Lemma changes_of_cons2 (a b : Q) (rest : list Q) :
  changes_of (a :: b :: rest) = rsi_step a b :: changes_of (b :: rest).
Proof. reflexivity. Qed.

Lemma gains_losses_fold (prices : list Q) :
  forall gains losses,
    fold_pairs rsi_body prices (gains, losses)
    = Ok (gains ++ map fst (changes_of prices), losses ++ map snd (changes_of prices)).
Proof.
  induction prices as [|p_prev rest IH]; intros gains losses.
  - cbn. now rewrite !app_nil_r.
  - destruct rest as [|p rest].
    + cbn. now rewrite !app_nil_r.
    + rewrite fold_pairs_cons2, changes_of_cons2.
      unfold rsi_body at 1. unfold rsi_step. cbv zeta.
      destruct (Qgtb (p - p_prev) 0); unfold rbind, fst, snd;
        rewrite IH, <- !app_assoc; reflexivity.
Qed.

(** The loop of [calculate_rsi] never raises. *)
Lemma gains_losses_loop_eq (prices : list Q) :
  gains_losses_loop prices
  = Ok (map fst (changes_of prices), map snd (changes_of prices)).
Proof.
  unfold gains_losses_loop.
  change (for_range 1 (length prices - 1)
            (fun i acc =>
               let? p := py_index prices (Z.of_nat i) in
               let? q := py_index prices (Z.of_nat i - 1) in
               rsi_body q p acc)
            ([], [])
          = Ok (map fst (changes_of prices), map snd (changes_of prices))).
  rewrite for_range_pairs.
  apply (gains_losses_fold prices [] []).
Qed.

(** ** Sums and averages *)

Lemma fold_left_Qplus (l : list Q) : forall a, fold_left Qplus l a == a + Qsum l.
Proof.
  induction l as [|x l IH]; intros a; cbn [fold_left Qsum].
  - lra.
  - rewrite IH. lra.
Qed.

Lemma py_sum_Qsum (l : list Q) : py_sum l == Qsum l.
Proof. unfold py_sum. rewrite fold_left_Qplus. lra. Qed.

Lemma Qsum_nonneg (l : list Q) : Forall (Qle 0) l -> 0 <= Qsum l.
Proof.
  induction 1 as [|x l Hx _ IH]; cbn [Qsum]; [apply Qle_refl | lra].
Qed.

Lemma py_len_pos {A : Type} (l : list A) : l <> [] -> 0 < py_len l.
Proof.
  intros H. destruct l as [|x l]; [contradiction|].
  unfold py_len, Qlt. cbn [length Qnum Qden inject_Z]. lia.
Qed.

Lemma py_len_nonzero {A : Type} (l : list A) : l <> [] -> ~ py_len l == 0.
Proof. intros H H0. apply py_len_pos in H. lra. Qed.

Lemma average_nonneg (l : list Q) :
  l <> [] -> Forall (Qle 0) l -> 0 <= py_sum l / py_len l.
Proof.
  intros Hne Hpos. apply Qle_shift_div_l; [now apply py_len_pos|].
  rewrite py_sum_Qsum. apply Qsum_nonneg in Hpos. lra.
Qed.

Lemma rsi_step_nonneg (p_prev p : Q) :
  0 <= fst (rsi_step p_prev p) /\ 0 <= snd (rsi_step p_prev p).
Proof.
  unfold rsi_step. cbv zeta. destruct (Qgtb (p - p_prev) 0) eqn:E; cbn [fst snd].
  - apply Qgtb_gt in E. split; lra.
  - apply Qgtb_le in E. split; lra.
Qed.

Lemma changes_of_nonneg (prices : list Q) :
  Forall (Qle 0) (map fst (changes_of prices))
  /\ Forall (Qle 0) (map snd (changes_of prices)).
Proof.
  induction prices as [|p_prev rest IH]; [split; constructor|].
  destruct rest as [|p rest]; [split; constructor|].
  rewrite changes_of_cons2. cbn [map].
  destruct IH as [IHg IHl]. destruct (rsi_step_nonneg p_prev p) as [Hg Hl].
  split; constructor; assumption.
Qed.

(** The value computed from non-empty [gains] and [losses]. *)
Lemma rsi_value_bounds (avg_gain avg_loss : Q) :
  0 <= avg_gain -> 0 <= avg_loss -> ~ avg_loss == 0 ->
  let rs := avg_gain / avg_loss in
  ~ 1 + rs == 0 /\ 0 <= 100 - 100 / (1 + rs) <= 100.
Proof.
  intros Hg Hl Hnz rs.
  assert (Hlpos : 0 < avg_loss) by lra.
  assert (Hrs : 0 <= rs).
  { subst rs. apply Qle_shift_div_l; [assumption | lra]. }
  assert (Hden : 0 < 1 + rs) by lra.
  assert (Hlo : 0 <= 100 / (1 + rs)).
  { apply Qle_shift_div_l; [assumption | lra]. }
  assert (Hhi : 100 / (1 + rs) <= 100).
  { apply Qle_shift_div_r; [assumption | lra]. }
  split; [lra|]. split; lra.
Qed.

(** ** [calculate_rsi] *)

Lemma calculate_rsi_of_changes (period : Z) (ta : TrendAnalyzer) :
  (Z.of_nat (length (price_history ta)) <? period + 1)%Z = false ->
  let prices := py_slice_from (- (period + 1)) (price_history ta) in
  let gains := map fst (changes_of prices) in
  let losses := map snd (changes_of prices) in
  calculate_rsi period ta
  = match changes_of prices with
    | [] => Ok 50
    | _ :: _ =>
        let avg_gain := py_sum gains / py_len gains in
        let avg_loss := py_sum losses / py_len losses in
        if Qeq_bool avg_loss 0 then Ok 100
        else Ok (100 - 100 / (1 + avg_gain / avg_loss))
    end
  /\ (changes_of prices <> [] ->
      0 <= py_sum gains / py_len gains /\ 0 <= py_sum losses / py_len losses).
Proof.
  intros Hlen prices gains losses.
  assert (Hbounds : changes_of prices <> [] ->
            0 <= py_sum gains / py_len gains /\ 0 <= py_sum losses / py_len losses).
  { intros Hne. destruct (changes_of_nonneg prices) as [Hg Hl].
    split; apply average_nonneg; try assumption; subst gains losses;
      destruct (changes_of prices); [contradiction|discriminate|contradiction|discriminate]. }
  split; [|exact Hbounds].
  unfold calculate_rsi. rewrite Hlen. fold prices.
  rewrite gains_losses_loop_eq. cbn [rbind fst snd]. fold gains losses.
  destruct (changes_of prices) as [|c ch] eqn:Ech; [subst gains losses; reflexivity|].
  assert (Hne : c :: ch <> []) by discriminate.
  destruct (Hbounds Hne) as [Hag Hal].
  assert (Hg : gains <> []) by (subst gains; discriminate).
  assert (Hl : losses <> []) by (subst losses; discriminate).
  destruct gains as [|g gs] eqn:Eg; [contradiction|].
  destruct losses as [|l ls] eqn:El; [contradiction|].
  rewrite !py_div_Ok by (apply py_len_nonzero; discriminate).
  cbn [rbind]. cbv zeta.
  destruct (Qeq_bool (py_sum (l :: ls) / py_len (l :: ls)) 0) eqn:Ez; [reflexivity|].
  apply Qeq_bool_neq in Ez.
  destruct (rsi_value_bounds _ _ Hag Hal Ez) as [Hden _].
  rewrite py_div_Ok by exact Ez. cbn [rbind].
  rewrite py_div_Ok by exact Hden. reflexivity.
Qed.

Lemma py_slice_from_last_n {A : Type} (n : nat) (l : list A) :
  (0 < n)%nat -> py_slice_from (- Z.of_nat n) l = last_n n l.
Proof.
  intros Hn. unfold py_slice_from, last_n.
  destruct (Z.ltb_spec (- Z.of_nat n) 0) as [_ | H]; [|lia].
  f_equal. lia.
Qed.

Lemma losses_of_changes (prices : list Q) :
  length (map snd (changes_of prices)) = length (losses_of prices)
  /\ Qsum (map snd (changes_of prices)) == Qsum (losses_of prices).
Proof.
  induction prices as [|p_prev rest IH]; [split; reflexivity|].
  destruct rest as [|p rest]; [split; reflexivity|].
  rewrite changes_of_cons2.
  change (losses_of (p_prev :: p :: rest))
    with ((if Qltb p p_prev then p_prev - p else 0) :: losses_of (p :: rest)).
  destruct IH as [IHlen IHsum]. cbn [map length Qsum]. split; [now rewrite IHlen|].
  rewrite IHsum. apply Qplus_comp; [|reflexivity].
  unfold rsi_step. cbv zeta.
  destruct (Qgtb (p - p_prev) 0) eqn:E1; destruct (Qltb p p_prev) eqn:E2; cbn [snd];
    try apply Qgtb_gt in E1; try apply Qgtb_le in E1;
    try apply Qltb_lt in E2; try apply Qltb_ge in E2; lra.
Qed.

(** C4.  [calculate_rsi(period)] returns a value in [0, 100] for every
    price history; it returns exactly 50 when the history holds fewer than
    [period + 1] samples, and exactly 100 when the average loss over the
    trailing [period + 1] samples is zero, as with fifteen samples each
    increasing by 1 and period 14. *)
Theorem C4_rsi_range_neutral_and_saturation :
  (forall (period : Z) (ta : TrendAnalyzer),
     exists rsi, calculate_rsi period ta = Ok rsi /\ 0 <= rsi <= 100)
  /\ (forall (period : Z) (ta : TrendAnalyzer),
        (Z.of_nat (length (price_history ta)) < period + 1)%Z ->
        calculate_rsi period ta = Ok 50)
  /\ (forall (period : nat) (ta : TrendAnalyzer) (avg : Q),
        average_loss period (price_history ta) = Some avg ->
        avg == 0 ->
        calculate_rsi (Z.of_nat period) ta = Ok 100)
  /\ calculate_rsi 14 (add_all fifteen_rising (TrendAnalyzer_init 30 5 20)) = Ok 100.
Proof.
  split; [|split; [|split]].
  - intros period ta.
    destruct (Z.of_nat (length (price_history ta)) <? period + 1)%Z eqn:Hlen.
    + exists 50. unfold calculate_rsi. rewrite Hlen. split; [reflexivity|].
      split; discriminate.
    + destruct (calculate_rsi_of_changes period ta Hlen) as [Heq Hb].
      cbv zeta in Heq, Hb. rewrite Heq.
      destruct (changes_of _) as [|c ch] eqn:Ech.
      * exists 50. split; [reflexivity|]. split; discriminate.
      * destruct Hb as [Hg Hl]; [discriminate|].
        destruct (Qeq_bool _ 0) eqn:Ez.
        -- exists 100. split; [reflexivity|]. split; [discriminate | apply Qle_refl].
        -- apply Qeq_bool_neq in Ez. eexists. split; [reflexivity|].
           apply (rsi_value_bounds _ _ Hg Hl Ez).
  - intros period ta Hlen. unfold calculate_rsi.
    apply Z.ltb_lt in Hlen. now rewrite Hlen.
  - intros period ta avg Havg Hzero. unfold average_loss in Havg.
    destruct (Nat.ltb_spec (length (price_history ta)) (period + 1)) as [|Hlen];
      [discriminate|].
    assert (Hlen' : (Z.of_nat (length (price_history ta)) <? Z.of_nat period + 1)%Z = false)
      by (apply Z.ltb_ge; lia).
    destruct (calculate_rsi_of_changes (Z.of_nat period) ta Hlen') as [Heq _].
    cbv zeta in Heq. rewrite Heq. clear Heq.
    replace (- (Z.of_nat period + 1))%Z with (- Z.of_nat (period + 1))%Z by lia.
    rewrite py_slice_from_last_n by lia.
    set (prices := last_n (period + 1) (price_history ta)) in *.
    destruct (losses_of_changes prices) as [Hl Hs].
    destruct (losses_of prices) as [|l0 ls] eqn:El; [discriminate|].
    injection Havg as Havg.
    destruct (changes_of prices) as [|c ch] eqn:Ech; [discriminate Hl|].
    assert (Hz : py_sum (map snd (c :: ch)) / py_len (map snd (c :: ch)) == 0).
    { rewrite py_sum_Qsum, Hs. unfold py_len. rewrite Hl.
      rewrite <- Hzero, <- Havg. reflexivity. }
    apply Qeq_bool_iff in Hz. now rewrite Hz.
  - vm_compute. reflexivity.
Qed.

Lemma C4_rsi_witness :
  let mk := fun p => {| sample_time := 0; sample_price := p; sample_volume := 1 |} in
  let short := add_all [mk 100; mk 99; mk 101] (TrendAnalyzer_init 30 5 20) in
  let rising := add_all [mk 1; mk 2; mk 3] (TrendAnalyzer_init 30 5 20) in
  (Z.of_nat (length (price_history short)) < 14 + 1)%Z
  /\ calculate_rsi 14 short = Ok 50
  /\ average_loss 2 (price_history rising) = Some ((0 + (0 + 0)) / py_len [0; 0])
  /\ (0 + (0 + 0)) / py_len [0; 0] == 0
  /\ calculate_rsi 2 rising = Ok 100.
Proof.
  intros mk short rising.
  destruct C4_rsi_range_neutral_and_saturation as (_ & Hshort & Hsat & _).
  assert (H1 : (Z.of_nat (length (price_history short)) < 14 + 1)%Z) by (cbn; lia).
  assert (H2 : average_loss 2 (price_history rising)
               = Some ((0 + (0 + 0)) / py_len [0; 0])) by reflexivity.
  assert (H3 : (0 + (0 + 0)) / py_len [0; 0] == 0) by reflexivity.
  split; [exact H1|]. split; [exact (Hshort 14%Z short H1)|].
  split; [exact H2|]. split; [exact H3|].
  exact (Hsat 2%nat rising _ H2 H3).
Defined.

(** ** [calculate_volatility] *)

Lemma returns_fold (prices : list Q) :
  forall acc,
    fold_pairs returns_body prices acc
    = (let? rs := simple_returns prices in Ok (acc ++ rs)).
Proof.
  induction prices as [|p_prev rest IH]; intros acc.
  - cbn. now rewrite app_nil_r.
  - destruct rest as [|p rest].
    + cbn. now rewrite app_nil_r.
    + rewrite fold_pairs_cons2.
      change (simple_returns (p_prev :: p :: rest))
        with (let? r := py_div (p - p_prev) p_prev in
              let? rs := simple_returns (p :: rest) in Ok (r :: rs)).
      unfold returns_body at 1.
      destruct (py_div (p - p_prev) p_prev) as [r| |]; cbn [rbind];
        try reflexivity.
      rewrite IH.
      destruct (simple_returns (p :: rest)) as [rs| |]; cbn [rbind];
        try reflexivity.
      now rewrite <- app_assoc.
Qed.

(** The loop of [calculate_volatility] computes the simple returns. *)
Lemma returns_loop_eq (prices : list Q) : returns_loop prices = simple_returns prices.
Proof.
  unfold returns_loop.
  change (for_range 1 (length prices - 1)
            (fun i acc =>
               let? p := py_index prices (Z.of_nat i) in
               let? q := py_index prices (Z.of_nat i - 1) in
               returns_body q p acc)
            []
          = simple_returns prices).
  rewrite for_range_pairs, returns_fold.
  now destruct (simple_returns prices).
Qed.

Lemma simple_returns_length (prices rs : list Q) :
  simple_returns prices = Ok rs -> length rs = (length prices - 1)%nat.
Proof.
  revert rs. induction prices as [|p_prev rest IH]; intros rs H.
  - injection H as <-. reflexivity.
  - destruct rest as [|p rest].
    + injection H as <-. reflexivity.
    + change (simple_returns (p_prev :: p :: rest))
        with (let? r := py_div (p - p_prev) p_prev in
              let? rs := simple_returns (p :: rest) in Ok (r :: rs)) in H.
      destruct (py_div (p - p_prev) p_prev) as [r| |]; try discriminate H.
      unfold rbind at 1 in H.
      destruct (simple_returns (p :: rest)) as [rs'| |]; try discriminate H.
      injection H as <-. cbn [length]. rewrite (IH rs' eq_refl). cbn [length]. lia.
Qed.

Lemma Qsum_map_ext (f g : Q -> Q) (l : list Q) :
  (forall x, f x == g x) -> Qsum (map f l) == Qsum (map g l).
Proof.
  intros H. induction l as [|x l IH]; cbn [map Qsum]; [reflexivity|].
  now rewrite H, IH.
Qed.

Lemma last_n_min {A : Type} (n : nat) (l : list A) :
  last_n (Nat.min n (length l)) l = last_n n l.
Proof. unfold last_n. f_equal. lia. Qed.

Lemma Qsum_squares_nonneg (m : Q) (l : list Q) :
  0 <= Qsum (map (fun r => (r - m) ^ 2) l).
Proof.
  induction l as [|x l IH]; cbn [map Qsum]; [apply Qle_refl|].
  change ((x - m) ^ 2) with ((x - m) * (x - m)).
  assert (Hsq : 0 <= (x - m) * (x - m)).
  { destruct (Qlt_le_dec (x - m) 0) as [Hneg | Hpos].
    - assert (Hopp : (x - m) * (x - m) == (- (x - m)) * (- (x - m))) by ring.
      rewrite Hopp. apply Qmult_le_0_compat; lra.
    - now apply Qmult_le_0_compat. }
  set (sq := (x - m) * (x - m)) in *.
  set (rest := Qsum (map (fun r => (r - m) ^ 2) l)) in *.
  lra.
Qed.

(** The radicand returned by [calculate_volatility] is a variance: it is
    never negative, so that [root_gtb_spec] applies to every comparison of
    the volatility in [get_trend_signal] and [get_optimal_trade_direction]. *)
Lemma calculate_volatility_nonneg (ta : TrendAnalyzer) (r : root) :
  calculate_volatility ta = Ok r -> 0 <= radicand r.
Proof.
  unfold calculate_volatility.
  destruct (length (price_history ta) <? 5)%nat; [intros H; injection H as <-; apply Qle_refl|].
  destruct (returns_loop _) as [returns| |]; cbn [rbind]; try discriminate.
  destruct returns as [|r0 rs]; [intros H; injection H as <-; apply Qle_refl|].
  assert (Hnz : ~ py_len (r0 :: rs) == 0) by (apply py_len_nonzero; discriminate).
  rewrite !py_div_Ok by exact Hnz. cbn [rbind].
  intros H. injection H as <-. cbn [radicand].
  apply Qle_shift_div_l; [apply py_len_pos; discriminate|].
  rewrite Qmult_0_l, py_sum_Qsum.
  exact (Qsum_squares_nonneg (py_sum (r0 :: rs) / py_len (r0 :: rs)) (r0 :: rs)).
Qed.

(** C6 (amended).  [calculate_volatility] returns zero when the history
    holds fewer than five samples; otherwise it returns the population
    standard deviation (divisor n, not n - 1) of the simple one-step
    returns over the last min(10, available) samples, and raises
    [ZeroDivisionError] when one of the prices it divides by is zero. *)
Theorem C6_volatility_is_population_stdev (ta : TrendAnalyzer) :
  agree root_eq (calculate_volatility ta) (volatility_as_computed (price_history ta)).
Proof.
  unfold calculate_volatility, volatility_as_computed.
  destruct (Nat.ltb_spec (length (price_history ta)) 5) as [Hlt | Hge].
  - cbn. unfold root_eq. reflexivity.
  - rewrite last_n_min.
    change (-10)%Z with (- Z.of_nat 10)%Z.
    rewrite py_slice_from_last_n by lia.
    rewrite returns_loop_eq.
    pose proof (last_n_length 10 (price_history ta)) as Hlen.
    destruct (simple_returns (last_n 10 (price_history ta))) as [rs| |] eqn:Ers;
      cbn [rbind agree]; try reflexivity.
    apply simple_returns_length in Ers. rewrite Hlen in Ers.
    destruct rs as [|r rs]; [cbn [length] in Ers; lia|].
    unfold population_stdev, squared_deviations.
    assert (Hnz : ~ py_len (r :: rs) == 0) by (apply py_len_nonzero; discriminate).
    rewrite !py_div_Ok by exact Hnz.
    cbn [rbind agree]. unfold root_eq. cbn [radicand].
    apply Qdiv_comp; [|reflexivity].
    rewrite py_sum_Qsum. apply Qsum_map_ext. intros x.
    change ((x - py_sum (r :: rs) / py_len (r :: rs)) ^ 2)
      with ((x - py_sum (r :: rs) / py_len (r :: rs))
            * (x - py_sum (r :: rs) / py_len (r :: rs))).
    now rewrite py_sum_Qsum.
Qed.

(** C6 (as stated, refuted).  On the three prices 100, 110, 99 the
    standard deviation of the two returns is not zero, with divisor n - 1
    or with divisor n, but [calculate_volatility] returns zero; on the five
    prices 100, 110, 121, 110, 121 it returns the population standard
    deviation, which differs from the sample standard deviation of the
    same four returns. *)
Lemma C6_volatility_is_not_sample_stdev :
  let ta3 := add_all (map volatility_sample [100; 110; 99]) (TrendAnalyzer_init 30 5 20) in
  let ta5 :=
    add_all (map volatility_sample [100; 110; 121; 110; 121]) (TrendAnalyzer_init 30 5 20) in
  ~ agree root_eq (calculate_volatility ta3) (volatility_as_specified (price_history ta3))
  /\ ~ agree root_eq (calculate_volatility ta3)
         (let? rs := simple_returns (price_history ta3) in population_stdev rs)
  /\ ~ agree root_eq (calculate_volatility ta5) (volatility_as_specified (price_history ta5)).
Proof.
  repeat split; intros H; vm_compute in H; discriminate H.
Qed.

(** ** The decision cooldown *)


(** The two trend-following returns start the window: after a LONG at
    1000, the calls at 1001 and 1004 are refused and the one at 1005 is
    answered again. *)
Lemma trend_direction_starts_cooldown :
  decided_directions
    (run_decisions trend_run TrendBasedTradeDecision_init (TrendAnalyzer_init 30 5 20))
  = [(1000, Some LONG); (1001, Some NEUTRAL); (1004, Some NEUTRAL); (1005, Some LONG)].
Proof. vm_compute. reflexivity. Qed.

(** C1.  The cooldown is not enforced after a direction returned by the
    RSI checks: on twenty steadily rising prices the call at clock reading
    1000 returns SHORT ("RSI overbought") without recording the time, and
    the call one second later, inside the five-second window, returns
    SHORT again. *)
Theorem C1_rsi_direction_skips_cooldown :
  let log :=
    run_decisions rsi_run TrendBasedTradeDecision_init (TrendAnalyzer_init 30 5 20) in
  log = [(1000, Ok (SHORT, ReasonRsiOverboughtGoShort));
         (1001, Ok (SHORT, ReasonRsiOverboughtGoShort))]
  /\ ~ cooldown_respected (decision_cooldown TrendBasedTradeDecision_init) log.
Proof.
  intros log.
  assert (Hlog : log = [(1000, Ok (SHORT, ReasonRsiOverboughtGoShort));
                        (1001, Ok (SHORT, ReasonRsiOverboughtGoShort))])
    by (vm_compute; reflexivity).
  split; [exact Hlog|].
  intros H. rewrite Hlog in H.
  specialize (H 0%nat 1%nat 1000 1001 SHORT SHORT
                ReasonRsiOverboughtGoShort ReasonRsiOverboughtGoShort).
  assert (Hd : SHORT = NEUTRAL).
  { apply H; [lia | reflexivity | reflexivity | discriminate | reflexivity]. }
  discriminate Hd.
Qed.

(** Which returns record the time: the trend-following ones do, the two
    RSI ones leave the decider as it was. *)
Lemma non_neutral_return_cases (t : Q) (d d' : TrendBasedTradeDecision)
  (ta ta' : TrendAnalyzer) (dir : Direction) (reason : Reason) :
  get_optimal_trade_direction t d ta = (Ok (dir, reason), d', ta') ->
  dir <> NEUTRAL ->
  ((exists strength,
      reason = ReasonBullishTrend strength \/ reason = ReasonBearishTrend strength)
   /\ last_decision_time d' = t
   /\ decision_cooldown d' = decision_cooldown d)
  \/ ((reason = ReasonRsiOverboughtGoShort \/ reason = ReasonRsiOversoldGoLong)
      /\ d' = d).
Proof.
  unfold get_optimal_trade_direction.
  destruct (Qltb _ (decision_cooldown d)); [intros H; now inversion H|].
  destruct (get_trend_signal ta) as [[[signal strength]| |] ta1];
    try (intros H; discriminate H).
  destruct (get_position_direction ta1) as [[position_direction| |] ta2];
    try (intros H; discriminate H).
  destruct (calculate_rsi 14 ta2) as [rsi| |]; try (intros H; discriminate H).
  destruct (calculate_price_momentum ta2) as [momentum| |];
    try (intros H; discriminate H).
  destruct (calculate_volatility ta2) as [volatility| |];
    try (intros H; discriminate H).
  repeat match goal with
         | |- context [if ?b then _ else _] => destruct b
         end;
    intros H Hdir; inversion H; subst; try contradiction;
    try (right; split; [auto | reflexivity]);
    left; (split; [eexists; eauto | split; reflexivity]).
Qed.

(** ** The exchange and the polling loop *)

Lemma send_calls (c : api_call) (ex : Exchange) :
  calls (snd (send c ex)) = calls ex ++ [(c, fst (send c ex))].
Proof. unfold send. now destruct (answers ex (length (calls ex))). Qed.

Lemma send_clock (c : api_call) (ex : Exchange) : clock ex <= clock (snd (send c ex)).
Proof.
  unfold send. destruct (answers ex (length (calls ex))) as [latency a].
  cbn [snd clock].
  assert (H : 0 <= inject_Z (Z.of_N latency) / 1000).
  { apply Qle_shift_div_l; [reflexivity|].
    unfold Qle. cbn [Qnum Qden inject_Z Qmult]. lia. }
  lra.
Qed.

Lemma status_of_filled (d : gmap string json) :
  status_of d = JStr "FILLED" -> d !! "status" = Some (JStr "FILLED").
Proof.
  unfold status_of. destruct (d !! "status") as [s|]; [now intros ->|discriminate].
Qed.

(** A run of the loop only sends status queries for its order, and an
    answer [True] comes from a FILLED status. *)
Lemma wait_loop_calls (fuel : nat) (symbol : string) (order_id : json)
  (start_time max_wait_time : Q) :
  forall (ex ex' : Exchange) (r : result bool),
    wait_loop fuel symbol order_id start_time max_wait_time ex = (r, ex') ->
    exists evs,
      calls ex' = calls ex ++ evs
      /\ no_market_order evs
      /\ (forall e, r <> Raise e)
      /\ (r = Ok true ->
          exists st,
            In (get_order_status symbol order_id, Returns (Some st)) evs
            /\ st !! "status" = Some (JStr "FILLED")).
Proof.
  induction fuel as [|fuel IH]; intros ex ex' r H; cbn [wait_loop] in H.
  - destruct (Qltb _ _); injection H as <- <-; exists [];
      (split; [now rewrite app_nil_r|]); (split; [reflexivity|]);
      (split; [discriminate|]); discriminate.
  - destruct (Qltb _ _).
    2:{ injection H as <- <-. exists []. split; [now rewrite app_nil_r|].
        split; [reflexivity|]. split; discriminate. }
    pose proof (send_calls (get_order_status symbol order_id) ex) as Hsend.
    destruct (send (get_order_status symbol order_id) ex) as [a ex1].
    cbn [fst snd] in Hsend.
    assert (Hcont : forall r ex',
              wait_loop fuel symbol order_id start_time max_wait_time (sleep 0.1 ex1)
              = (r, ex') ->
              exists evs,
                calls ex' = calls ex ++ evs
                /\ no_market_order evs
                /\ (forall e, r <> Raise e)
                /\ (r = Ok true ->
                    exists st,
                      In (get_order_status symbol order_id, Returns (Some st)) evs
                      /\ st !! "status" = Some (JStr "FILLED"))).
    { intros r0 ex0 H0. apply IH in H0.
      destruct H0 as (evs & Hc & Hnm & Hnr & Hf).
      cbn [sleep calls] in Hc. rewrite Hsend, <- app_assoc in Hc.
      eexists. split; [exact Hc|]. split; [exact Hnm|]. split; [exact Hnr|].
      intros Hr. destruct (Hf Hr) as (st & Hin & Hst).
      exists st. split; [now right | exact Hst]. }
    destruct a as [order_status | e].
    2:{ injection H as <- <-. eexists. split; [exact Hsend|].
        split; [reflexivity|]. split; discriminate. }
    destruct order_status as [d|]; [|now apply Hcont].
    destruct (negb (truthy (Some d))); [now apply Hcont|].
    destruct (bool_decide (status_of d = JStr "FILLED")) eqn:Efilled.
    + injection H as <- <-. eexists. split; [exact Hsend|].
      split; [reflexivity|]. split; [discriminate|]. intros _.
      exists d. split; [now left|].
      apply status_of_filled. now apply bool_decide_eq_true in Efilled.
    + destruct (_ || _).
      * injection H as <- <-. eexists. split; [exact Hsend|].
        split; [reflexivity|]. split; discriminate.
      * now apply Hcont.
Qed.

Lemma Qceiling_ge (x : Q) : x <= inject_Z (Qceiling x).
Proof. apply Qle_ceiling. Qed.

(** With [fuel] iterations left and at least [max_wait_time - fuel * 0.1]
    already elapsed, the loop returns. *)
Lemma wait_loop_returns (fuel : nat) (symbol : string) (order_id : json)
  (start_time max_wait_time : Q) :
  forall ex : Exchange,
    max_wait_time <= clock ex - start_time + inject_Z (Z.of_nat fuel) * 0.1 ->
    fst (wait_loop fuel symbol order_id start_time max_wait_time ex) <> OutOfFuel.
Proof.
  induction fuel as [|fuel IH]; intros ex Hbudget; cbn [wait_loop].
  - destruct (Qltb _ _) eqn:E; [|discriminate].
    apply Qltb_lt in E. change (inject_Z (Z.of_nat 0)) with 0 in Hbudget. lra.
  - destruct (Qltb _ _); [|discriminate].
    pose proof (send_clock (get_order_status symbol order_id) ex) as Hclock.
    destruct (send (get_order_status symbol order_id) ex) as [a ex1].
    cbn [snd] in Hclock.
    assert (Hcont :
              fst (wait_loop fuel symbol order_id start_time max_wait_time (sleep 0.1 ex1))
              <> OutOfFuel).
    { apply IH. cbn [sleep clock].
      rewrite Nat2Z.inj_succ in Hbudget. unfold Z.succ in Hbudget.
      rewrite inject_Z_plus in Hbudget. change (inject_Z 1) with 1 in Hbudget. lra. }
    destruct a as [[d|] | e]; try exact Hcont; [|discriminate].
    destruct (negb (truthy (Some d))); [exact Hcont|].
    destruct (bool_decide _); [discriminate|].
    destruct (_ || _); [discriminate | exact Hcont].
Qed.

(** [wait_for_order_fill] always returns a boolean. *)
Lemma wait_for_order_fill_returns (symbol : string) (order_id : json)
  (max_wait_time : Q) (ex : Exchange) :
  exists b, fst (wait_for_order_fill symbol order_id max_wait_time ex) = Ok b.
Proof.
  assert (Hfuel : fst (wait_for_order_fill symbol order_id max_wait_time ex) <> OutOfFuel).
  { unfold wait_for_order_fill. apply wait_loop_returns.
    unfold poll_budget.
    destruct (Z.le_gt_cases 0 (Qceiling (max_wait_time / 0.1))) as [Hpos | Hneg].
    - rewrite Z2Nat.id by exact Hpos.
      pose proof (Qceiling_ge (max_wait_time / 0.1)) as Hc.
      assert (Hm : max_wait_time == max_wait_time / 0.1 * 0.1) by (field; discriminate).
      lra.
    - pose proof (Qceiling_ge (max_wait_time / 0.1)) as Hc.
      assert (Hz : inject_Z (Qceiling (max_wait_time / 0.1)) <= 0).
      { change 0 with (inject_Z 0). rewrite <- Zle_Qle. lia. }
      assert (Hm : max_wait_time == max_wait_time / 0.1 * 0.1) by (field; discriminate).
      replace (Z.to_nat (Qceiling (max_wait_time / 0.1))) with 0%nat by lia.
      change (inject_Z (Z.of_nat 0)) with 0. lra. }
  destruct (wait_for_order_fill symbol order_id max_wait_time ex) as [r ex'] eqn:E.
  cbn [fst] in *.
  unfold wait_for_order_fill in E. apply wait_loop_calls in E.
  destruct E as (_ & _ & _ & Hnr & _).
  destruct r as [b|e|]; [now exists b | now destruct (Hnr e) | contradiction].
Qed.

(** [wait_for_order_fill] answers a boolean, sends only status queries,
    and answers [True] only on a FILLED status for its order. *)
Lemma wait_for_order_fill_cases (symbol : string) (order_id : json)
  (max_wait_time : Q) (ex : Exchange) :
  exists (b : bool) (ex' : Exchange) (evs : list (api_call * api_answer)),
    wait_for_order_fill symbol order_id max_wait_time ex = (Ok b, ex')
    /\ calls ex' = calls ex ++ evs
    /\ no_market_order evs
    /\ (b = true ->
        exists st,
          In (get_order_status symbol order_id, Returns (Some st)) evs
          /\ st !! "status" = Some (JStr "FILLED")).
Proof.
  destruct (wait_for_order_fill_returns symbol order_id max_wait_time ex) as [b Hb].
  destruct (wait_for_order_fill symbol order_id max_wait_time ex) as [r ex'] eqn:E.
  cbn [fst] in Hb. subst r.
  pose proof E as E'. unfold wait_for_order_fill in E'.
  apply wait_loop_calls in E'. destruct E' as (evs & Hc & Hnm & _ & Hf).
  exists b, ex', evs. split; [reflexivity|]. split; [exact Hc|]. split; [exact Hnm|].
  intros ->. now apply Hf.
Qed.

(** ** Order cycles *)

Ltac cycle_send :=
  match goal with
  | |- context [send ?c ?ex] =>
      let a := fresh "a" in
      let ex' := fresh "ex" in
      let H := fresh "Hcalls" in
      pose proof (send_calls c ex) as H;
      destruct (send c ex) as [a ex']; cbn [fst snd] in H;
      cbv beta iota
  end.

Ltac cycle_wait :=
  match goal with
  | |- context [wait_for_order_fill ?s ?o ?w ?ex] =>
      let b := fresh "filled" in
      let ex' := fresh "ex" in
      let evs := fresh "polls" in
      let Hw := fresh "Hwait" in
      let Hc := fresh "Hcalls" in
      let Hnm := fresh "Hpolls" in
      let Hf := fresh "Hfilled" in
      destruct (wait_for_order_fill_cases s o w ex) as (b & ex' & evs & Hw & Hc & Hnm & Hf);
      rewrite Hw; cbv beta iota;
      destruct b;
      [ let st := fresh "st" in
        let Hin := fresh "Hin" in
        let Hst := fresh "Hst" in
        destruct (Hf eq_refl) as (st & Hin & Hst); clear Hf
      | clear Hf ]
  end.

Ltac cycle_branch :=
  match goal with
  | |- context [match ?a with Returns _ => _ | Throws _ => _ end] =>
      is_var a; destruct a as [[?|]|?]; cbn [truthy order_id_of]; cbv beta iota
  | |- context [negb (bool_decide (?d = ∅))] =>
      let E := fresh "Enonempty" in
      destruct (bool_decide (d = ∅)) eqn:E; cbn [negb]; cbv beta iota
  | |- context [match ?d !! "orderId" with _ => _ end] =>
      let E := fresh "Eid" in
      destruct (d !! "orderId") eqn:E; cbv beta iota
  end.

Ltac cycle_trace :=
  cbn [api set_api add_position];
  repeat match goal with
         | H : calls _ = _ |- _ => rewrite H; clear H
         end;
  rewrite <- ?app_assoc; reflexivity.

Ltac cycle_in :=
  rewrite ?in_app_iff; cbn [In];
  solve [ eauto 12 ].

Ltac cycle_limit_leg :=
  unfold limit_leg_filled;
  do 6 eexists;
  split; [cycle_in|]; split; [eassumption|]; split; [cycle_in | eassumption].

Ltac cycle_no_market :=
  unfold no_market_order in *;
  rewrite ?forallb_app; cbn [forallb fst is_market_order negb andb];
  repeat match goal with
         | H : forallb _ _ = true |- _ => rewrite H; clear H
         end;
  reflexivity.

Ltac cycle_leaf :=
  unfold failure;
  do 3 eexists; split; [reflexivity|]; split; [cycle_trace|];
  unfold cycle_sound; cbn [fst snd]; split; intros Hflag; try discriminate Hflag;
  repeat split;
  first
    [ cycle_limit_leg
    | cycle_no_market
    | left; cycle_limit_leg
    | right; unfold market_fallback_answered; eexists;
      split;
      [ cycle_in
      | match goal with
        | H : bool_decide (?d = ∅) = false |- ?d <> ∅ =>
            exact (proj1 (bool_decide_eq_false _) H)
        end ] ].

Lemma execute_long_strategy_sound cfg symbol bid ask self :
  exists out self' evs,
    execute_long_strategy cfg symbol bid ask self = (Ok out, self')
    /\ calls (api self') = calls (api self) ++ evs
    /\ cycle_sound symbol "BUY" "SELL" (trade_quantity self) out evs.
Proof.
  unfold execute_long_strategy. cbv zeta.
  repeat first [cycle_send | cycle_wait | cycle_branch]; cycle_leaf.
Qed.

Lemma execute_short_strategy_sound cfg symbol bid ask self :
  exists out self' evs,
    execute_short_strategy cfg symbol bid ask self = (Ok out, self')
    /\ calls (api self') = calls (api self) ++ evs
    /\ cycle_sound symbol "SELL" "BUY" (trade_quantity self) out evs.
Proof.
  unfold execute_short_strategy. cbv zeta.
  repeat first [cycle_send | cycle_wait | cycle_branch]; cycle_leaf.
Qed.

Lemma use_optimized_limit_strategy_sound cfg symbol bid ask spread_data self :
  exists out self' evs,
    use_optimized_limit_strategy cfg symbol bid ask spread_data self = (Ok out, self')
    /\ calls (api self') = calls (api self) ++ evs
    /\ cycle_sound symbol "BUY" "SELL" (trade_quantity self) out evs.
Proof.
  unfold use_optimized_limit_strategy. cbv zeta.
  repeat first [cycle_send | cycle_wait | cycle_branch]; cycle_leaf.
Qed.

(** Every cycle returns an outcome, and the calls it made bear it out. *)
Lemma execute_directional_trade_sound cfg symbol direction bid ask spread_data self :
  exists out self' evs,
    execute_directional_trade cfg symbol direction bid ask spread_data self
    = (Ok out, self')
    /\ calls (api self') = calls (api self) ++ evs
    /\ cycle_sound symbol (entry_side direction) (exit_side direction)
         (trade_quantity self) out evs.
Proof.
  unfold execute_directional_trade, execute_traditional_volume_trade.
  destruct direction; cbn [entry_side exit_side].
  - destruct (execute_long_strategy_sound cfg symbol bid ask self)
      as (out & self' & evs & -> & H). now exists out, self', evs.
  - destruct (execute_short_strategy_sound cfg symbol bid ask self)
      as (out & self' & evs & -> & H). now exists out, self', evs.
  - destruct (use_optimized_limit_strategy_sound cfg symbol bid ask spread_data self)
      as (out & self' & evs & -> & H). now exists out, self', evs.
Qed.

(** C8 (amended).  Whatever the exchange answers, a trade cycle (long,
    short or traditional) reports [success = true] only if its entry leg
    was seen FILLED and either its exit leg was seen FILLED or a
    reduce-only market order of the exit side for the trade quantity was
    sent and the call returned a non-empty object (the status in that
    object is not read), and it reports [is_maker = true] only if both
    legs were seen FILLED as limit orders and no market order was sent. *)
Theorem C8_success_needs_filled_entry_and_answered_exit :
  forall cfg symbol direction bid ask spread_data self success is_maker fee self',
    execute_directional_trade cfg symbol direction bid ask spread_data self
    = (Ok (success, is_maker, fee), self') ->
    exists evs,
      calls (api self') = calls (api self) ++ evs
      /\ (success = true ->
          limit_leg_filled symbol (entry_side direction) (trade_quantity self) evs
          /\ (limit_leg_filled symbol (exit_side direction) (trade_quantity self) evs
              \/ market_fallback_answered symbol (exit_side direction)
                   (trade_quantity self) evs))
      /\ (is_maker = true ->
          limit_leg_filled symbol (entry_side direction) (trade_quantity self) evs
          /\ limit_leg_filled symbol (exit_side direction) (trade_quantity self) evs
          /\ no_market_order evs).
Proof.
  intros cfg symbol direction bid ask spread_data self success is_maker fee self' H.
  destruct (execute_directional_trade_sound cfg symbol direction bid ask spread_data self)
    as (out & self1 & evs & Hrun & Hcalls & Hsound).
  rewrite Hrun in H. injection H as -> ->.
  exists evs. split; [exact Hcalls|]. exact Hsound.
Qed.

Lemma C8_success_witness :
  let self := trader_on exchange_fills_both in
  let spread_data := {| bid_qty := Some 1; ask_qty := Some 2 |} in
  let run := execute_directional_trade LIMIT_ORDER "BTCUSDT" LONG 100 101 spread_data self in
  let fee :=
    0.0035 * (py_round (100 * (1 + 0.0001 * 0.3)) 8 + py_round (101 * (1 + 0.0001 * 2)) 8)
    * 0.0002 * 0.8 in
  run = (Ok (true, true, fee), snd run)
  /\ exists evs,
       calls (api (snd run)) = calls (api self) ++ evs
       /\ (true = true ->
           limit_leg_filled "BTCUSDT" "BUY" 0.0035 evs
           /\ (limit_leg_filled "BTCUSDT" "SELL" 0.0035 evs
               \/ market_fallback_answered "BTCUSDT" "SELL" 0.0035 evs))
       /\ (true = true ->
           limit_leg_filled "BTCUSDT" "BUY" 0.0035 evs
           /\ limit_leg_filled "BTCUSDT" "SELL" 0.0035 evs
           /\ no_market_order evs).
Proof.
  intros self spread_data run fee.
  assert (Hrun : run = (Ok (true, true, fee), snd run)) by (vm_compute; reflexivity).
  split; [exact Hrun|].
  exact (C8_success_needs_filled_entry_and_answered_exit LIMIT_ORDER "BTCUSDT" LONG
           100 101 spread_data self true true fee (snd run) Hrun).
Defined.

(** The calls of a long cycle in which the exit order stays NEW and the
    market order is answered with status REJECTED. *)
Lemma rejected_fallback_calls :
  let spread_data := {| bid_qty := Some 1; ask_qty := Some 2 |} in
  let self := trader_on (exchange_exit_stuck (Returns (order_rejected 3))) in
  let run := execute_directional_trade LIMIT_ORDER "BTCUSDT" LONG 100 101 spread_data self in
  calls (api (snd run))
  = [(place_limit_order "BTCUSDT" "BUY" 0.0035
        (py_round (100 * (1 + 0.0001 * 0.3)) 8) "IOC" false, Returns (order_ack 1));
     (get_order_status "BTCUSDT" (JNum 1), Returns (order_state "FILLED"));
     (place_limit_order "BTCUSDT" "SELL" 0.0035
        (py_round (101 * (1 + 0.0001 * 2)) 8) "GTC" true, Returns (order_ack 2));
     (get_order_status "BTCUSDT" (JNum 2), Returns (order_state "NEW"));
     (cancel_order "BTCUSDT" (JNum 2), Returns (order_state "CANCELED"));
     (place_market_order "BTCUSDT" "SELL" 0.0035 true, Returns (order_rejected 3))].
Proof. vm_compute. reflexivity. Qed.

(** C8 (as stated, refuted).  In a long cycle the entry order is seen
    FILLED, the exit limit order is still NEW after its ten seconds and is
    cancelled, and the reduce-only market order is answered with an order
    id and status REJECTED.  The cycle reports [success = true] although
    the exit leg reached a FILLED state neither as a limit order nor
    through the market order: any non-empty answer to the market order
    counts as a success. *)
Lemma C8_rejected_fallback_counts_as_success :
  let spread_data := {| bid_qty := Some 1; ask_qty := Some 2 |} in
  let self := trader_on (exchange_exit_stuck (Returns (order_rejected 3))) in
  let run := execute_directional_trade LIMIT_ORDER "BTCUSDT" LONG 100 101 spread_data self in
  let evs := calls (api (snd run)) in
  (exists fee, fst run = Ok (true, false, fee))
  /\ In (place_market_order "BTCUSDT" "SELL" 0.0035 true, Returns (order_rejected 3)) evs
  /\ ~ limit_leg_filled "BTCUSDT" "SELL" 0.0035 evs
  /\ ~ market_fallback_reached_filled "BTCUSDT" "SELL" 0.0035 evs.
Proof.
  intros spread_data self run evs.
  pose proof rejected_fallback_calls as Hcalls. cbv zeta in Hcalls.
  fold spread_data self run evs in Hcalls.
  split; [eexists; vm_compute; reflexivity|].
  rewrite Hcalls. clear Hcalls.
  split; [cbn [In]; auto 10|].
  split.
  - intros (price & tif & ro & order & order_id & st & Hplace & Hid & Hquery & Hst).
    cbn [In] in Hplace.
    repeat (destruct Hplace as [Hplace|Hplace]; [try discriminate Hplace|]);
      try contradiction.
    injection Hplace as <- <- <- <-.
    vm_compute in Hid. injection Hid as <-.
    cbn [In] in Hquery.
    repeat (destruct Hquery as [Hquery|Hquery]; [try discriminate Hquery|]);
      try contradiction.
    injection Hquery as <-. vm_compute in Hst. discriminate Hst.
  - intros (ro & response & Hplace & Hfilled).
    cbn [In] in Hplace.
    repeat (destruct Hplace as [Hplace|Hplace]; [try discriminate Hplace|]);
      try contradiction.
    injection Hplace as <- <-.
    destruct Hfilled as [Hst | (order_id & st & Hid & Hquery & Hst)].
    + vm_compute in Hst. discriminate Hst.
    + vm_compute in Hid. injection Hid as <-.
      cbn [In] in Hquery.
      repeat (destruct Hquery as [Hquery|Hquery]; [try discriminate Hquery|]);
        try contradiction.
Qed.

(** ** The market fallback of the exit leg *)

Lemma lookup_nonempty (d : gmap string json) (k : string) (v : json) :
  d !! k = Some v -> bool_decide (d = ∅) = false.
Proof.
  intros H. apply bool_decide_eq_false. intros ->.
  rewrite lookup_empty in H. discriminate H.
Qed.

Ltac cycle_fallback_trace :=
  cbn [api set_api add_position];
  repeat match goal with
         | H : calls _ = _ |- _ => rewrite H; clear H
         end;
  rewrite <- ?app_assoc; cbn [app]; reflexivity.

(** An equation between two copies of the same term. *)
Ltac same_term :=
  match goal with
  | |- ?x = ?y => constr_eq x y; reflexivity
  end.

(** Refutes [accepted a], or its negation, from what [a] is. *)
Ltac fallback_contradiction H :=
  first
    [ (* a refused or raising call is not accepted *)
      destruct H as (? & Heq & ?); discriminate Heq
    | (* an empty object is not accepted *)
      let Hd := fresh in
      destruct H as (? & Heq & Hd); injection Heq as <-;
      match goal with
      | E : bool_decide (?d = ∅) = true |- _ =>
          apply Hd; exact (proj1 (bool_decide_eq_true _) E)
      end
    | (* a non-empty object is accepted *)
      apply H; eexists; split; [reflexivity|];
      match goal with
      | E : bool_decide (?d = ∅) = false |- ?d <> ∅ =>
          exact (proj1 (bool_decide_eq_false _) E)
      end ].

(** C9 (amended).  In a directional (long or short) cycle whose entry leg
    fills and whose exit limit order does not fill within its wait budget,
    the trader asks the exchange to cancel the exit order and, once that
    call returns, sends a reduce-only market order for the trade quantity.
    The outcome is [success = true, is_maker = false] with fee
    [trade_quantity * entry_price * 0.0003] when that market order is
    answered with a non-empty object; otherwise it is the failure
    [(false, false, 0)].  The traditional cycle has no market fallback:
    after asking for the cancellation its outcome is the failure.  Every
    failure adds the unclosed quantity to the position recorded for the
    symbol. *)
Theorem C9_exit_timeout_market_fallback :
  forall cfg symbol direction bid ask spread_data self exit_order_id ex4,
    exit_leg_timed_out cfg symbol direction bid ask spread_data self exit_order_id ex4 ->
    let quantity := trade_quantity self in
    let entry_price :=
      order_price (entry_order cfg symbol direction bid ask spread_data quantity) in
    exists out self' cancelled rest,
      execute_directional_trade cfg symbol direction bid ask spread_data self
      = (Ok out, self')
      /\ calls (api self')
         = calls ex4 ++ (cancel_order symbol exit_order_id, cancelled) :: rest
      /\ match direction, cancelled with
         | NEUTRAL, _ => rest = [] /\ out = failure
         | _, Throws _ => True
         | _, Returns _ =>
             exists market,
               rest = [(place_market_order symbol (exit_side direction) quantity true,
                        market)]
               /\ (accepted market -> out = (true, false, quantity * entry_price * 0.0003))
               /\ (~ accepted market -> out = failure)
         end
      /\ (out = failure ->
          positions self' !! symbol
          = Some (get_default (positions self !! symbol) 0
                  + stray_position direction quantity)).
Proof.
  intros cfg symbol direction bid ask spread_data self exit_order_id ex4 Hpre
    quantity entry_price.
  destruct Hpre as (entry_response & entry_order_id & ex1 & ex2 & exit_response & ex3
                    & Hentry & Hentry_id & Hentry_fill & Hexit & Hexit_id & Hexit_fill).
  unfold execute_directional_trade, execute_traditional_volume_trade.
  destruct direction;
    [ unfold execute_long_strategy
    | unfold execute_short_strategy
    | unfold use_optimized_limit_strategy ];
    cbv zeta;
    cbn [entry_order exit_order exit_wait] in Hentry, Hexit, Hexit_fill;
    rewrite Hentry; cbn [truthy order_id_of];
    rewrite (lookup_nonempty _ _ _ Hentry_id), Hentry_id; cbn [negb];
    rewrite Hentry_fill, Hexit; cbn [truthy order_id_of];
    rewrite (lookup_nonempty _ _ _ Hexit_id), Hexit_id; cbn [negb];
    rewrite Hexit_fill;
    repeat first [cycle_send | cycle_branch];
    unfold failure;
    subst quantity entry_price;
    cbn [order_price entry_order exit_side stray_position];
    do 4 eexists;
    (split; [reflexivity|]);
    (split; [cycle_fallback_trace|]);
    cbv beta iota;
    (split;
     [ first
         [ exact I
         | split; same_term
         | eexists; split; [reflexivity|]; split; intros Hacc;
           first [ same_term | exfalso; fallback_contradiction Hacc ] ]
     | intros Hf;
       first
         [ apply (f_equal (fun out : outcome => fst (fst out))) in Hf;
           cbn [fst] in Hf; discriminate Hf
         | cbn [add_position set_api positions]; apply lookup_insert_eq ] ]).
Qed.

(** On [exchange_exit_stuck] the exit leg of a long cycle and of a
    traditional cycle times out, whatever the market order is answered. *)
Lemma exit_stuck_times_out (market_answer : api_answer) :
  let self := trader_on (exchange_exit_stuck market_answer) in
  let spread_data := {| bid_qty := Some 1; ask_qty := Some 2 |} in
  (exists ex4,
     exit_leg_timed_out LIMIT_ORDER "BTCUSDT" LONG 100 101 spread_data self (JNum 2) ex4)
  /\ (exists ex4,
        exit_leg_timed_out LIMIT_ORDER "BTCUSDT" NEUTRAL 100 101 spread_data self
          (JNum 2) ex4).
Proof.
  intros self spread_data. split.
  - set (entry := entry_order LIMIT_ORDER "BTCUSDT" LONG 100 101 spread_data 0.0035).
    set (exit_ := exit_order LIMIT_ORDER "BTCUSDT" LONG 100 101 spread_data 0.0035).
    set (ex1 := snd (send entry (api self))).
    set (ex2 := snd (wait_for_order_fill "BTCUSDT" (JNum 1) 5 ex1)).
    set (ex3 := snd (send exit_ ex2)).
    set (ex4 := snd (wait_for_order_fill "BTCUSDT" (JNum 2) (5 * 2) ex3)).
    exists ex4.
    exists {[ "orderId" := JNum 1 ]}, (JNum 1), ex1, ex2, {[ "orderId" := JNum 2 ]}, ex3.
    do 5 (split; [vm_compute; reflexivity|]). vm_compute. reflexivity.
  - set (entry := entry_order LIMIT_ORDER "BTCUSDT" NEUTRAL 100 101 spread_data 0.0035).
    set (exit_ := exit_order LIMIT_ORDER "BTCUSDT" NEUTRAL 100 101 spread_data 0.0035).
    set (ex1 := snd (send entry (api self))).
    set (ex2 := snd (wait_for_order_fill "BTCUSDT" (JNum 1) 5 ex1)).
    set (ex3 := snd (send exit_ ex2)).
    set (ex4 := snd (wait_for_order_fill "BTCUSDT" (JNum 2) 5 ex3)).
    exists ex4.
    exists {[ "orderId" := JNum 1 ]}, (JNum 1), ex1, ex2, {[ "orderId" := JNum 2 ]}, ex3.
    do 5 (split; [vm_compute; reflexivity|]). vm_compute. reflexivity.
Qed.

(** C9 (as stated, refuted).  In a long cycle the entry leg fills, the exit
    order is still unfilled after its ten seconds, the cancel request is
    answered, and the market order is refused (the call returns [None]):
    the cycle is recorded as a failure, not as a taker success.  In a
    traditional cycle on an exchange that would accept a market order, the
    exit order times out in the same way and the cycle fails without any
    market order being sent. *)
Lemma C9_refused_fallback_is_a_failure :
  let spread_data := {| bid_qty := Some 1; ask_qty := Some 2 |} in
  let refusing := trader_on (exchange_exit_stuck (Returns None)) in
  let long_run :=
    execute_directional_trade LIMIT_ORDER "BTCUSDT" LONG 100 101 spread_data refusing in
  let accepting := trader_on (exchange_exit_stuck (Returns (order_ack 3))) in
  let traditional_run :=
    execute_directional_trade LIMIT_ORDER "BTCUSDT" NEUTRAL 100 101 spread_data accepting in
  ((exists ex4,
      exit_leg_timed_out LIMIT_ORDER "BTCUSDT" LONG 100 101 spread_data refusing
        (JNum 2) ex4)
   /\ fst long_run = Ok (false, false, 0)
   /\ ~ (exists fee self', long_run = (Ok (true, false, fee), self')))
  /\ ((exists ex4,
        exit_leg_timed_out LIMIT_ORDER "BTCUSDT" NEUTRAL 100 101 spread_data accepting
          (JNum 2) ex4)
      /\ fst traditional_run = Ok (false, false, 0)
      /\ no_market_order (calls (api (snd traditional_run)))
      /\ ~ (exists fee self', traditional_run = (Ok (true, false, fee), self'))).
Proof.
  intros spread_data refusing long_run accepting traditional_run.
  assert (Hlong : fst long_run = Ok (false, false, 0)) by (vm_compute; reflexivity).
  assert (Htrad : fst traditional_run = Ok (false, false, 0)) by (vm_compute; reflexivity).
  split; [split; [|split]|split; [|split; [|split]]].
  - exact (proj1 (exit_stuck_times_out (Returns None))).
  - exact Hlong.
  - intros (fee & self' & H). rewrite H in Hlong. discriminate Hlong.
  - exact (proj2 (exit_stuck_times_out (Returns (order_ack 3)))).
  - exact Htrad.
  - vm_compute. reflexivity.
  - intros (fee & self' & H). rewrite H in Htrad. discriminate Htrad.
Qed.

Lemma C9_exit_timeout_witness :
  let spread_data := {| bid_qty := Some 1; ask_qty := Some 2 |} in
  let self := trader_on (exchange_exit_stuck (Returns (order_ack 3))) in
  exists ex4,
    exit_leg_timed_out LIMIT_ORDER "BTCUSDT" LONG 100 101 spread_data self (JNum 2) ex4
    /\ exists out self' cancelled rest,
         execute_directional_trade LIMIT_ORDER "BTCUSDT" LONG 100 101 spread_data self
         = (Ok out, self')
         /\ calls (api self')
            = calls ex4 ++ (cancel_order "BTCUSDT" (JNum 2), cancelled) :: rest
         /\ match cancelled with
            | Throws _ => True
            | Returns _ =>
                exists market,
                  rest = [(place_market_order "BTCUSDT" "SELL" 0.0035 true, market)]
                  /\ (accepted market ->
                      out = (true, false,
                             0.0035 * py_round (100 * (1 + 0.0001 * 0.3)) 8 * 0.0003))
                  /\ (~ accepted market -> out = failure)
            end
         /\ (out = failure ->
             positions self' !! "BTCUSDT"
             = Some (get_default (positions self !! "BTCUSDT") 0 + 0.0035)).
Proof.
  intros spread_data self.
  destruct (exit_stuck_times_out (Returns (order_ack 3))) as [[ex4 Hpre] _].
  exists ex4. split; [exact Hpre|].
  exact (C9_exit_timeout_market_fallback LIMIT_ORDER "BTCUSDT" LONG 100 101 spread_data
           self (JNum 2) ex4 Hpre).
Defined.

(** * Further properties of the code *)

(** ** Moving averages *)





(** ** The caches of the analyzer *)

Lemma same_window_refl (ta : TrendAnalyzer) : same_window ta ta.
Proof. reflexivity. Qed.


#[local] Hint Resolve same_window_refl : core.

Lemma same_window_prices (ta ta' : TrendAnalyzer) :
  same_window ta ta' ->
  price_history ta' = price_history ta /\ short_ma ta' = short_ma ta
  /\ long_ma ta' = long_ma ta /\ window_size ta' = window_size ta.
Proof.
  unfold same_window. intros H.
  pose proof (f_equal price_history H) as H1.
  pose proof (f_equal short_ma H) as H2.
  pose proof (f_equal long_ma H) as H3.
  pose proof (f_equal window_size H) as H4.
  cbn in H1, H2, H3, H4. auto.
Qed.

Lemma calculate_moving_average_window_only (period : Z) (ta ta' : TrendAnalyzer) :
  price_history ta' = price_history ta ->
  calculate_moving_average period ta' = calculate_moving_average period ta.
Proof. intros H. unfold calculate_moving_average. now rewrite H. Qed.



Lemma calculate_rsi_window_only (period : Z) (ta ta' : TrendAnalyzer) :
  price_history ta' = price_history ta ->
  calculate_rsi period ta' = calculate_rsi period ta.
Proof. intros H. unfold calculate_rsi. now rewrite H. Qed.

Lemma caches_coherent_same_window (ta ta' : TrendAnalyzer) :
  same_window ta ta' ->
  _short_ma_cache ta' = _short_ma_cache ta ->
  _long_ma_cache ta' = _long_ma_cache ta ->
  caches_coherent ta -> caches_coherent ta'.
Proof.
  intros Hw Hs Hl [Hcs Hcl].
  destruct (same_window_prices ta ta' Hw) as (Hp & Hsm & Hlm & _).
  split; intros v Hv.
  - rewrite Hsm, (calculate_moving_average_window_only _ ta ta' Hp).
    apply Hcs. congruence.
  - rewrite Hlm, (calculate_moving_average_window_only _ ta ta' Hp).
    apply Hcl. congruence.
Qed.







Lemma add_price_data_periods (t p v : Q) (ta : TrendAnalyzer) :
  short_ma (add_price_data t p v ta) = short_ma ta
  /\ long_ma (add_price_data t p v ta) = long_ma ta.
Proof. split; reflexivity. Qed.



(** ** The trend signal *)





(** ** No exception on positive prices *)






















(** ** Support and resistance *)





(** ** Leaving a position *)









(** ** The cooldown after a trend-following decision *)





(** ** The trading statistics *)














Lemma trades_on_later (day : Z) (trades : list Trade) :
  Forall (fun tr => (day <= trade_date tr)%Z) trades ->
  forall earlier, (earlier < day)%Z -> trades_on earlier trades = [].
Proof.
  intros H earlier Hlt. unfold trades_on.
  induction H as [|tr trades Htr _ IH]; [reflexivity|].
  cbn [List.filter]. destruct (Z.eqb_spec (trade_date tr) earlier); [lia|exact IH].
Qed.





(** ** The drawdown records, symbol by symbol *)




(** ** What update_position_value can raise *)









(** ** Polling an order *)




(** ** The orders and the positions of a cycle *)










